(** * aws-go-forward: port forwarding through an SSM session

    A shallow embedding of the Go program of this repository, in two of its
    states: [main.go], which runs the tunnelling agent in-process, and the
    program before it, which chooses between the in-process and the external
    agent with the [-b] flag.  (The oldest program, with the external agent
    only and no keep-alive, shares its functions with the latter but for the
    text of one error, and is not modelled apart.)

    Every call that leaves the program (the AWS SDK, [encoding/json], the
    tunnelling agent, [os/exec], the network, the signal channel) is answered
    by an explicit environment and recorded in a trace of events; the program
    itself is written in a small state-and-outcome monad.  A Go [int] is a
    [Z] (the program does no arithmetic on it), a Go [error] is the text that
    [%v] prints for it, a pointer is an [option], and a function with the
    results [(T, error)] returns a pair.

    The keep-alive goroutine is a function of its own, run on the sequence
    of [select] cases that fire; in the trace of [main] it appears as the
    event of its start, with the port and the stop channel it is given. *)

From Stdlib Require Import ZArith Ascii DecimalString DecimalZ DecimalPos.
From stdpp Require Import base option list strings gmap.

Local Open Scope string_scope.

(** ** Go values *)

Definition error := string.

(** The line feed that [Println] appends and that the format strings spell
    as a backslash followed by n. *)
Definition LF : string := String "010"%char EmptyString.

(** The double quote of the format strings. *)
Definition DQ : string := String "034"%char EmptyString.

(** [fmt.Sprintf] with the format of the agent's target argument: an opening
    brace, the quoted word Target, a colon, the quoted [%s], a closing brace. *)
Definition Sprintf_Target (instanceID : string) : string :=
  "{" +:+ DQ +:+ "Target" +:+ DQ +:+ ":" +:+ DQ +:+ instanceID +:+ DQ +:+ "}".

(** [fmt.Sprintf("%d", n)] *)
Definition Sprintf_d (n : Z) : string := NilZero.string_of_int (Z.to_int n).

(** ** The program's own record *)

Record Config := {
  Profile : string;
  Region : string;
  InstanceName : string;
  LocalPort : Z;
  RemoteHost : string;
  RemotePort : Z;
  UseBuiltin : bool
}.

(** ** SDK types, as far as the program touches them *)

Record aws_Config := {
  SharedConfigProfile : string;
  ConfigRegion : string
}.

Record Filter := {
  Filter_Name : option string;
  Filter_Values : list string
}.

Record DescribeInstancesInput := {
  Filters : list Filter
}.

Definition InstanceStateName := string.
Definition InstanceStateNameRunning : InstanceStateName := "running".

Record InstanceState := {
  State_Name : InstanceStateName
}.

Record Instance := {
  InstanceId : option string;
  State : option InstanceState
}.

Record Reservation := {
  Instances : list Instance
}.

Record DescribeInstancesOutput := {
  Reservations : list Reservation
}.

Record StartSessionInput := {
  Target : option string;
  DocumentName : option string;
  Parameters : gmap string (list string)
}.

Record StartSessionOutput := {
  SessionId : option string;
  StreamUrl : option string;
  TokenValue : option string
}.

(** [exec.Cmd] and [os.Process] *)
Record SysProcAttr := {
  Setpgid : bool
}.

Record Cmd := {
  Cmd_Path : string;
  Cmd_Args : list string;
  Cmd_SysProcAttr : option SysProcAttr
}.

Record Process := {
  Pid : Z
}.

Inductive Signal := Interrupt | SIGTERM.

Definition Chan := nat.

(** What the process does that can be observed from outside. *)
Inductive Event :=
| EvIniLoad (file : string)
| EvLoadDefaultConfig (profile region : string)
| EvEC2NewFromConfig (cfg : aws_Config)
| EvSSMNewFromConfig (cfg : aws_Config)
| EvDescribeInstances (input : DescribeInstancesInput)
| EvStartSession (input : StartSessionInput)
| EvValidateInputAndStartSession (args : list string)
| EvCmdStart (cmd : Cmd)
| EvGoKeepAlive (localPort : Z) (stopChan : Chan)
| EvSignalNotify (c : Chan) (sigs : list Signal)
| EvRecv (c : Chan)
| EvClose (c : Chan)
| EvKill (p : Process)
| EvNewTicker (d : Z)
| EvTickerStop
| EvDial (network address : string)
| EvConnWrite (data : string)
| EvConnClose
| EvStdout (text : string)
| EvLog (text : string)
| EvExit (code : Z).

(** ** The monad *)

(** How a piece of the program ends: it returns, the process exits
    ([log.Fatal] calls [os.Exit(1)]), a nil pointer is dereferenced, or it
    blocks for ever in a call or a channel operation. *)
Inductive Outcome (A : Type) :=
| Returned (a : A)
| Exited (code : Z)
| Panicked
| Blocked.
Arguments Returned {A} a.
Arguments Exited {A} code.
Arguments Panicked {A}.
Arguments Blocked {A}.

(** The mutable state of the process: what it has done so far, the channels
    it has made, and the package-level variable [sessionManagerProcess]. *)
Record St := {
  trace : list Event;
  chans : nat;
  sessionManagerProcess : option Process
}.

Definition St0 : St :=
  {| trace := []; chans := 0; sessionManagerProcess := None |}.

Definition M (A : Type) : Type := St -> St * Outcome A.

Global Instance M_ret : MRet M := fun A a s => (s, Returned a).

Global Instance M_bind : MBind M := fun A B f m s =>
  match m s with
  | (s', Returned a) => f a s'
  | (s', Exited c) => (s', Exited c)
  | (s', Panicked) => (s', Panicked)
  | (s', Blocked) => (s', Blocked)
  end.

(** One more event on the trace. *)
Definition push (e : Event) (s : St) : St :=
  {| trace := trace s ++ [e]; chans := chans s;
     sessionManagerProcess := sessionManagerProcess s |}.

Definition emit (e : Event) : M unit := fun s => (push e s, Returned tt).

Definition os_Exit {A} (code : Z) : M A := fun s =>
  (push (EvExit code) s, Exited code).

Definition block {A} : M A := fun s => (s, Blocked).

(** [*p] *)
Definition deref {A} (p : option A) : M A := fun s =>
  match p with
  | Some a => (s, Returned a)
  | None => (s, Panicked)
  end.

(** [make(chan T)] *)
Definition make_chan : M Chan := fun s =>
  ({| trace := trace s; chans := S (chans s);
      sessionManagerProcess := sessionManagerProcess s |}, Returned (chans s)).

Definition get_sessionManagerProcess : M (option Process) := fun s =>
  (s, Returned (sessionManagerProcess s)).

Definition set_sessionManagerProcess (p : option Process) : M unit := fun s =>
  ({| trace := trace s; chans := chans s; sessionManagerProcess := p |},
   Returned tt).

(** [log.Fatal] and [log.Fatalf]: the message goes to the log, then the
    process exits with status 1. *)
Definition log_Fatal {A} (msg : string) : M A :=
  emit (EvLog msg);; os_Exit 1.

Definition fmt_Print (text : string) : M unit := emit (EvStdout text).
Definition fmt_Println (text : string) : M unit := emit (EvStdout (text +:+ LF)).

(** ** Clients *)

Record ec2_Client := {
  DescribeInstances : DescribeInstancesInput -> error + DescribeInstancesOutput
}.

Record ssm_Client := {
  StartSession : StartSessionInput -> error + StartSessionOutput
}.

(** ** getInstanceID *)

Fixpoint getInstanceID_instances (instances : list Instance) : M (option string) :=
  match instances with
  | [] => mret None
  | instance :: rest =>
      st ← deref (State instance);
      if String.eqb (State_Name st) InstanceStateNameRunning then
        id ← deref (InstanceId instance);
        mret (Some id)
      else getInstanceID_instances rest
  end.

Fixpoint getInstanceID_reservations (reservations : list Reservation) : M (option string) :=
  match reservations with
  | [] => mret None
  | reservation :: rest =>
      found ← getInstanceID_instances (Instances reservation);
      match found with
      | Some id => mret (Some id)
      | None => getInstanceID_reservations rest
      end
  end.

Definition getInstanceID (client : ec2_Client) (instanceName : string)
  : M (string * option error) :=
  let input := {| Filters := [ {| Filter_Name := Some "tag:Name";
                                  Filter_Values := [instanceName] |} ] |} in
  emit (EvDescribeInstances input);;
  match DescribeInstances client input with
  | inl err => mret (EmptyString, Some err)
  | inr output =>
      found ← getInstanceID_reservations (Reservations output);
      match found with
      | Some id => mret (id, None)
      | None => mret (EmptyString, Some "No running aws instances found.")
      end
  end.

(** ** startPortForwarding *)

Definition startPortForwarding (client : ssm_Client) (instanceID remoteHost : string)
    (localPort remotePort : Z) : M (option StartSessionOutput * option error) :=
  let input := {|
    Target := Some instanceID;
    DocumentName := Some "AWS-StartPortForwardingSessionToRemoteHost";
    Parameters :=
      <["portNumber" := [Sprintf_d remotePort]]>
      (<["host" := [remoteHost]]>
      (<["localPortNumber" := [Sprintf_d localPort]]> ∅))
  |} in
  emit (EvStartSession input);;
  match StartSession client input with
  | inl err => mret (None, Some err)
  | inr output => mret (Some output, None)
  end.

(** ** The environment *)

(** The tunnelling agent's entry routine either comes back, leaving its
    diagnostics in the buffer it was given, or keeps the caller for as long
    as the tunnel lives. *)
Inductive AgentRun :=
| AgentReturns (output : string)
| AgentBlocks.

Definition ini_Section := gmap string string.
Definition ini_File := gmap string ini_Section.

Record World := {
  ini_Load : string -> error + ini_File;
  Section_MapTo : ini_Section -> Config -> error + Config;
  config_LoadDefaultConfig : string -> string -> error + aws_Config;
  ec2_api : aws_Config -> DescribeInstancesInput -> error + DescribeInstancesOutput;
  ssm_api : aws_Config -> StartSessionInput -> error + StartSessionOutput;
  json_Marshal : option StartSessionOutput -> error + string;
  session_ValidateInputAndStartSession : list string -> AgentRun;
  Cmd_Start : Cmd -> error + Process;
  signal_delivered : option Signal
}.

Definition zero_Config : Config :=
  {| Profile := EmptyString; Region := EmptyString; InstanceName := EmptyString;
     LocalPort := 0; RemoteHost := EmptyString; RemotePort := 0;
     UseBuiltin := false |}.

Definition zero_aws_Config : aws_Config :=
  {| SharedConfigProfile := EmptyString; ConfigRegion := EmptyString |}.

(** [if cond { body }] *)
Definition when (cond : bool) (body : M unit) : M unit :=
  if cond then body else mret tt.

Section Program.

Variable w : World.

Definition loadConfigFromFile (configFile : string) : M (option Config * option error) :=
  let cfg := zero_Config in
  emit (EvIniLoad configFile);;
  match ini_Load w configFile with
  | inl err => mret (None, Some err)
  | inr iniCfg =>
      let section := default ∅ (iniCfg !! "settings") in
      match Section_MapTo w section cfg with
      | inl err => mret (None, Some err)
      | inr cfg => mret (Some cfg, None)
      end
  end.

Definition createAWSSession (profile region : string) : M (aws_Config * option error) :=
  emit (EvLoadDefaultConfig profile region);;
  match config_LoadDefaultConfig w profile region with
  | inl err => mret (zero_aws_Config, Some err)
  | inr cfg => mret (cfg, None)
  end.

Definition ec2_NewFromConfig (cfg : aws_Config) : M ec2_Client :=
  emit (EvEC2NewFromConfig cfg);;
  mret {| DescribeInstances := ec2_api w cfg |}.

Definition ssm_NewFromConfig (cfg : aws_Config) : M ssm_Client :=
  emit (EvSSMNewFromConfig cfg);;
  mret {| StartSession := ssm_api w cfg |}.

(** [json.Marshal(response)] followed by the check that ends the process. *)
Definition marshal_or_die (response : option StartSessionOutput) : M string :=
  match json_Marshal w response with
  | inl err => log_Fatal ("Failed to marshal response: " +:+ err)
  | inr pluginData => mret pluginData
  end.

Definition startSessionManagerPluginBuiltin (response : option StartSessionOutput)
    (region profile instanceID ssmEndpoint : string) : M (option error) :=
  pluginData ← marshal_or_die response;
  let args := [ "aws-go-forward";
                pluginData;
                region;
                "StartSession";
                profile;
                Sprintf_Target instanceID;
                ssmEndpoint ] in
  emit (EvValidateInputAndStartSession args);;
  match session_ValidateInputAndStartSession w args with
  | AgentBlocks => block
  | AgentReturns output =>
      when (negb (String.eqb output EmptyString))
           (fmt_Print ("Session Manager Output: " +:+ output +:+ LF));;
      mret None
  end.

(** [exec.Command(name, arg...)]: the argument vector starts with the name.
    (The search of the name in the path is left to [Cmd_Start].) *)
Definition exec_Command (name : string) (arg : list string) : Cmd :=
  {| Cmd_Path := name; Cmd_Args := name :: arg; Cmd_SysProcAttr := None |}.

Definition startSessionManagerPluginExternal (response : option StartSessionOutput)
    (region profile instanceID ssmEndpoint : string) : M (option Process * option error) :=
  pluginData ← marshal_or_die response;
  let cmd := exec_Command "session-manager-plugin"
               [ pluginData;
                 region;
                 "StartSession";
                 profile;
                 Sprintf_Target instanceID;
                 ssmEndpoint ] in
  let cmd := {| Cmd_Path := Cmd_Path cmd; Cmd_Args := Cmd_Args cmd;
                Cmd_SysProcAttr := Some {| Setpgid := true |} |} in
  emit (EvCmdStart cmd);;
  match Cmd_Start w cmd with
  | inl err => mret (None, Some err)
  | inr process => mret (Some process, None)
  end.

Definition cleanup : M unit :=
  p ← get_sessionManagerProcess;
  match p with
  | Some process =>
      emit (EvKill process);;
      fmt_Println "Session Manager Plugin process terminated."
  | None => mret tt
  end.

(** [<-c] on the channel that [signal.Notify] feeds. *)
Definition recv_signal (c : Chan) : M unit :=
  match signal_delivered w with
  | Some _ => emit (EvRecv c)
  | None => block
  end.

(** The test on the six settings that both programs make. *)
Definition missing (cfg : Config) : bool :=
  String.eqb (Profile cfg) EmptyString || String.eqb (Region cfg) EmptyString ||
  String.eqb (InstanceName cfg) EmptyString || Z.eqb (LocalPort cfg) 0 ||
  String.eqb (RemoteHost cfg) EmptyString || Z.eqb (RemotePort cfg) 0.

(** The start of [main], the same in both programs: the flags, replaced as a
    whole by the file's settings when a file is named. *)
Definition resolve (flags : Config) (configFile : string) : M Config :=
  if negb (String.eqb configFile EmptyString) then
    '(fileCfg, err) ← loadConfigFromFile configFile;
    match err with
    | Some e => log_Fatal ("Failed to load configuration file: " +:+ e)
    | None => deref fileCfg
    end
  else mret flags.

End Program.

(** ** KeepAlive *)

(** [time.Second], a [time.Duration] in nanoseconds. *)
Definition time_Second : Z := 1000000000.

(** The case that a [select] of the loop takes. *)
Inductive Select :=
| TickerC
| StopChan.

(** What the local port answers to the probe of the k-th tick. *)
Record Net := {
  net_Dial : nat -> string -> string -> option error;
  Conn_Write : nat -> string -> option error
}.

Section KeepAlive.

Variable net : Net.
(** What is printed after a successful write: the one line in which the two
    programs differ. *)
Variable sent : M unit.

(** The [for { select { ... } }] loop, run on the cases that fire, in order.
    When none fires any more the goroutine stays in the [select]. *)
Fixpoint KeepAlive_loop (localPort : Z) (k : nat) (fired : list Select) : M unit :=
  match fired with
  | [] => block
  | TickerC :: rest =>
      let address := "127.0.0.1:" +:+ Sprintf_d localPort in
      emit (EvDial "tcp" address);;
      match net_Dial net k "tcp" address with
      | Some err =>
          fmt_Print ("Keep-alive failed to connect: " +:+ err +:+ LF);;
          KeepAlive_loop localPort (S k) rest
      | None =>
          emit (EvConnWrite LF);;
          match Conn_Write net k LF with
          | Some err => fmt_Print ("Error sending keep-alive packet: " +:+ err +:+ LF)
          | None => sent
          end;;
          emit EvConnClose;;
          KeepAlive_loop localPort (S k) rest
      end
  | StopChan :: _ =>
      fmt_Println "Stopping keep-alive routine"
  end.

(** The ticker is stopped by the deferred call, when the function returns. *)
Definition KeepAlive_with (localPort : Z) (fired : list Select) : M unit :=
  emit (EvNewTicker (30 * time_Second));;
  KeepAlive_loop localPort 0 fired;;
  emit EvTickerStop.

End KeepAlive.

(** ** main.go *)

Module MainGo.

Definition KeepAlive (net : Net) : Z -> list Select -> M unit :=
  KeepAlive_with net (fmt_Print ".").

Definition main (w : World) (flags : Config) (configFile : string) : M unit :=
  cfg ← resolve w flags configFile;
  when (missing cfg)
       (log_Fatal "Missing parameters. Use --help for more information.");;
  '(awsCfg, err) ← createAWSSession w (Profile cfg) (Region cfg);
  match err with
  | Some e => log_Fatal ("Failed to create AWS session: " +:+ e)
  | None => mret tt
  end;;
  ec2Client ← ec2_NewFromConfig w awsCfg;
  '(instanceID, err) ← getInstanceID ec2Client (InstanceName cfg);
  match err with
  | Some e => log_Fatal ("Failed to get instance ID: " +:+ e)
  | None => mret tt
  end;;
  ssmClient ← ssm_NewFromConfig w awsCfg;
  '(sessionResponse, err) ← startPortForwarding ssmClient instanceID
                              (RemoteHost cfg) (LocalPort cfg) (RemotePort cfg);
  match err with
  | Some e => log_Fatal ("Failed to start port forwarding: " +:+ e)
  | None => mret tt
  end;;
  fmt_Println ("Port forwarding session started." +:+ LF +:+ "Press Ctrl-C to terminate.");;
  let ssmEndpoint := "https://ssm." +:+ Region cfg +:+ ".amazonaws.com" in
  stopChan ← make_chan;
  emit (EvGoKeepAlive (LocalPort cfg) stopChan);;
  err ← startSessionManagerPluginBuiltin w sessionResponse (Region cfg) (Profile cfg)
          instanceID ssmEndpoint;
  match err with
  | Some e => log_Fatal ("Failed to start Session Manager Plugin builtin: " +:+ e)
  | None => mret tt
  end;;
  c ← make_chan;
  emit (EvSignalNotify c [Interrupt; SIGTERM]);;
  recv_signal w c;;
  emit (EvClose stopChan).

End MainGo.

(** ** The program with both launch strategies *)

Module Part000.

Definition KeepAlive (net : Net) : Z -> list Select -> M unit :=
  KeepAlive_with net (fmt_Println "Keep-alive packet sent successfully").

Definition main (w : World) (flags : Config) (configFile : string) : M unit :=
  cfg ← resolve w flags configFile;
  when (missing cfg)
       (log_Fatal "All parameters are required. Use --help for more information.");;
  '(awsCfg, err) ← createAWSSession w (Profile cfg) (Region cfg);
  match err with
  | Some e => log_Fatal ("Failed to create AWS session: " +:+ e)
  | None => mret tt
  end;;
  ec2Client ← ec2_NewFromConfig w awsCfg;
  '(instanceID, err) ← getInstanceID ec2Client (InstanceName cfg);
  match err with
  | Some e => log_Fatal ("Failed to get instance ID: " +:+ e)
  | None => mret tt
  end;;
  ssmClient ← ssm_NewFromConfig w awsCfg;
  '(sessionResponse, err) ← startPortForwarding ssmClient instanceID
                              (RemoteHost cfg) (LocalPort cfg) (RemotePort cfg);
  match err with
  | Some e => log_Fatal ("Failed to start port forwarding: " +:+ e)
  | None => mret tt
  end;;
  fmt_Println "Port forwarding session started";;
  let ssmEndpoint := "https://ssm." +:+ Region cfg +:+ ".amazonaws.com" in
  stopChan ← make_chan;
  emit (EvGoKeepAlive (LocalPort cfg) stopChan);;
  (if UseBuiltin cfg then
     err ← startSessionManagerPluginBuiltin w sessionResponse (Region cfg) (Profile cfg)
             instanceID ssmEndpoint;
     match err with
     | Some e => log_Fatal ("Failed to start Session Manager Plugin builtin: " +:+ e)
     | None => mret tt
     end
   else
     '(process, err) ← startSessionManagerPluginExternal w sessionResponse (Region cfg)
                          (Profile cfg) instanceID ssmEndpoint;
     set_sessionManagerProcess process;;
     match err with
     | Some e => log_Fatal ("Failed to start Session Manager Plugin: " +:+ e)
     | None => mret tt
     end;;
     started ← get_sessionManagerProcess;
     started ← deref started;
     fmt_Print ("Session Manager Plugin process started with PID: "
                +:+ Sprintf_d (Pid started) +:+ LF));;
  c ← make_chan;
  emit (EvSignalNotify c [Interrupt; SIGTERM]);;
  recv_signal w c;;
  emit (EvClose stopChan);;
  cleanup.

End Part000.

(** A Go program ends, with status 0, when [main] returns. *)
Definition go_run (main : M unit) : St * Outcome unit :=
  (main;; os_Exit 0) St0.

Definition events (r : St * Outcome unit) : list Event := trace (fst r).
Definition outcome (r : St * Outcome unit) : Outcome unit := snd r.

(** * Specification-side definitions *)

(** Reading a decimal string back, as [strconv.Atoi] does on what [%d]
    printed. *)
Definition Atoi (s : string) : option Z :=
  Z.of_int <$> NilZero.int_of_string s.

(** The scan as the specification words it: the instances of all groups, in
    the order of the groups and then of the instances within each, and the
    first of them that is running. *)
Definition is_running (i : Instance) : bool :=
  match State i with
  | Some st => String.eqb (State_Name st) "running"
  | None => false
  end.

Definition enumeration (rs : list Reservation) : list Instance :=
  concat (Instances <$> rs).

Definition first_running (rs : list Reservation) : option Instance :=
  List.find is_running (enumeration rs).

(** What the control plane is expected to return for every instance: a state,
    and an identifier for those that run. *)
Definition described (i : Instance) : Prop :=
  is_Some (State i) /\ (is_running i = true -> is_Some (InstanceId i)).

Definition name_filter (instanceName : string) : DescribeInstancesInput :=
  {| Filters := [ {| Filter_Name := Some "tag:Name";
                     Filter_Values := [instanceName] |} ] |}.

(** The session request of the interface description: the document for
    port forwarding to a remote host, the instance as target, and the three
    named parameters, each a one-element list of strings. *)
Definition session_request (instanceID remoteHost : string) (localPort remotePort : Z)
  : StartSessionInput :=
  {| Target := Some instanceID;
     DocumentName := Some "AWS-StartPortForwardingSessionToRemoteHost";
     Parameters := list_to_map [ ("localPortNumber", [Sprintf_d localPort]);
                                 ("host", [remoteHost]);
                                 ("portNumber", [Sprintf_d remotePort]) ] |}.

(** Calls that reach outside the process. *)
Definition external_call (e : Event) : bool :=
  match e with
  | EvLoadDefaultConfig _ _ | EvEC2NewFromConfig _ | EvSSMNewFromConfig _
  | EvDescribeInstances _ | EvStartSession _
  | EvValidateInputAndStartSession _ | EvCmdStart _ | EvDial _ _ => true
  | _ => false
  end.

(** A setting that is missing: one of the six fields is empty or zero. *)
Definition some_field_missing (cfg : Config) : Prop :=
  Profile cfg = EmptyString \/ Region cfg = EmptyString \/
  InstanceName cfg = EmptyString \/ LocalPort cfg = 0%Z \/
  RemoteHost cfg = EmptyString \/ RemotePort cfg = 0%Z.

Definition valid_port (p : Z) : Prop := (1 <= p <= 65535)%Z.

(** An outcome that is a result or a nil dereference. *)
Definition scan_outcome {A} (o : Outcome A) : Prop :=
  o = Panicked \/ exists a, o = Returned a.

(** The argument vector of the interface description, after the invocation
    name: the descriptor, the region, the operation, the profile, the target
    object and the endpoint of the region. *)
Definition agent_arguments (descriptor region profile instanceID : string) : list string :=
  [ descriptor;
    region;
    "StartSession";
    profile;
    "{" +:+ DQ +:+ "Target" +:+ DQ +:+ ":" +:+ DQ +:+ instanceID +:+ DQ +:+ "}";
    "https://ssm." +:+ region +:+ ".amazonaws.com" ].

(** The two ways in which the agent is started. *)
Definition launches (e : Event) : bool :=
  match e with
  | EvValidateInputAndStartSession _ | EvCmdStart _ => true
  | _ => false
  end.

(** The keep-alive probe of one tick, as the component design words it:
    one connection attempt to the local port and, when it succeeds, one
    newline written and the connection closed; every failure is printed. *)
Definition probe_address (localPort : Z) : string :=
  "127.0.0.1:" +:+ Sprintf_d localPort.

Definition dial_ok (net : Net) (localPort : Z) (k : nat) : bool :=
  match net_Dial net k "tcp" (probe_address localPort) with
  | Some _ => false
  | None => true
  end.

Definition probe (net : Net) (sent_text : string) (localPort : Z) (k : nat) : list Event :=
  EvDial "tcp" (probe_address localPort) ::
  match net_Dial net k "tcp" (probe_address localPort) with
  | Some err => [EvStdout ("Keep-alive failed to connect: " +:+ err +:+ LF)]
  | None =>
      [ EvConnWrite LF;
        EvStdout match Conn_Write net k LF with
                 | Some err => "Error sending keep-alive packet: " +:+ err +:+ LF
                 | None => sent_text
                 end;
        EvConnClose ]
  end.

Definition is_dial (e : Event) : bool :=
  match e with EvDial _ _ => true | _ => false end.
Definition is_write (e : Event) : bool :=
  match e with EvConnWrite _ => true | _ => false end.
Definition is_close (e : Event) : bool :=
  match e with EvConnClose => true | _ => false end.

(** Several events at once. *)
Definition extend (l : list Event) (s : St) : St :=
  {| trace := trace s ++ l; chans := chans s;
     sessionManagerProcess := sessionManagerProcess s |}.

(** The steps of the shutdown path: the wait for the signal, the firing of
    the stop channel, the kill. *)
Definition teardown (e : Event) : bool :=
  match e with
  | EvSignalNotify _ _ | EvRecv _ | EvClose _ | EvKill _ => true
  | _ => false
  end.


(** What the process itself writes: its standard output and its log. *)
Definition own_output (e : Event) : bool :=
  match e with
  | EvStdout _ | EvLog _ => true
  | _ => false
  end.



(** ** Sample data *)

Definition sample_Config : Config :=
  {| Profile := "default"; Region := "us-east-1"; InstanceName := "db-bastion";
     LocalPort := 3306; RemoteHost := "db.internal"; RemotePort := 3306;
     UseBuiltin := false |}.

Definition sample_instances : DescribeInstancesOutput :=
  {| Reservations :=
       [ {| Instances := [ {| InstanceId := Some "i-0aaa";
                              State := Some {| State_Name := "stopped" |} |} ] |};
         {| Instances := [ {| InstanceId := Some "i-0bbb";
                              State := Some {| State_Name := "running" |} |};
                           {| InstanceId := Some "i-0ccc";
                              State := Some {| State_Name := "running" |} |} ] |} ] |}.

Definition sample_session : StartSessionOutput :=
  {| SessionId := Some "session-1"; StreamUrl := Some "wss://stream";
     TokenValue := Some "token-1" |}.

(** Settings without a region, and settings whose ports are not port
    numbers. *)
Definition sample_no_region : Config :=
  {| Profile := "default"; Region := EmptyString; InstanceName := "db-bastion";
     LocalPort := 3306; RemoteHost := "db.internal"; RemotePort := 3306;
     UseBuiltin := false |}.

Definition sample_wide_ports : Config :=
  {| Profile := "default"; Region := "us-east-1"; InstanceName := "db-bastion";
     LocalPort := 70000; RemoteHost := "db.internal"; RemotePort := -1;
     UseBuiltin := false |}.

(** A stand-in for [json.Marshal], good for identifiers that need no
    escaping. *)
Definition sample_field (name : string) (value : option string) : string :=
  DQ +:+ name +:+ DQ +:+ ":" +:+
  match value with
  | Some v => DQ +:+ v +:+ DQ
  | None => "null"
  end.

Definition sample_json (r : StartSessionOutput) : string :=
  "{" +:+ sample_field "SessionId" (SessionId r) +:+ "," +:+
  sample_field "StreamUrl" (StreamUrl r) +:+ "," +:+
  sample_field "TokenValue" (TokenValue r) +:+ "}".

Definition sample_Marshal (response : option StartSessionOutput) : error + string :=
  match response with
  | Some r => inr (sample_json r)
  | None => inr "null"
  end.

(** A world in which everything succeeds: the agent keeps the caller when it
    runs in-process, and a termination signal is delivered. *)
Definition sample_World : World :=
  {| ini_Load := fun _ => inl "open: no such file or directory";
     Section_MapTo := fun _ cfg => inr cfg;
     config_LoadDefaultConfig := fun profile region =>
       inr {| SharedConfigProfile := profile; ConfigRegion := region |};
     ec2_api := fun _ _ => inr sample_instances;
     ssm_api := fun _ _ => inr sample_session;
     json_Marshal := sample_Marshal;
     session_ValidateInputAndStartSession := fun _ => AgentBlocks;
     Cmd_Start := fun _ => inr {| Pid := 4242 |};
     signal_delivered := Some Interrupt |}.

(** The same world with an agent that comes back at once with a
    diagnostic. *)
Definition sample_World_returning : World :=
  {| ini_Load := ini_Load sample_World;
     Section_MapTo := Section_MapTo sample_World;
     config_LoadDefaultConfig := config_LoadDefaultConfig sample_World;
     ec2_api := ec2_api sample_World;
     ssm_api := ssm_api sample_World;
     json_Marshal := json_Marshal sample_World;
     session_ValidateInputAndStartSession := fun _ =>
       AgentReturns "Cannot perform start session: EOF";
     Cmd_Start := Cmd_Start sample_World;
     signal_delivered := signal_delivered sample_World |}.

(** The same world on a machine without the agent's executable. *)
Definition sample_World_no_agent : World :=
  {| ini_Load := ini_Load sample_World;
     Section_MapTo := Section_MapTo sample_World;
     config_LoadDefaultConfig := config_LoadDefaultConfig sample_World;
     ec2_api := ec2_api sample_World;
     ssm_api := ssm_api sample_World;
     json_Marshal := json_Marshal sample_World;
     session_ValidateInputAndStartSession :=
       session_ValidateInputAndStartSession sample_World;
     Cmd_Start := fun _ =>
       inl "exec: session-manager-plugin: executable file not found in $PATH";
     signal_delivered := signal_delivered sample_World |}.

(** The sample settings with the in-process agent selected. *)
Definition sample_builtin : Config :=
  {| Profile := "default"; Region := "us-east-1"; InstanceName := "db-bastion";
     LocalPort := 3306; RemoteHost := "db.internal"; RemotePort := 3306;
     UseBuiltin := true |}.

(** The world of the returning agent once more, with another session. *)
Definition sample_other_session : StartSessionOutput :=
  {| SessionId := Some "session-2"; StreamUrl := Some "wss://stream";
     TokenValue := Some "token-2" |}.

Definition sample_World_other_session : World :=
  {| ini_Load := ini_Load sample_World;
     Section_MapTo := Section_MapTo sample_World;
     config_LoadDefaultConfig := config_LoadDefaultConfig sample_World;
     ec2_api := ec2_api sample_World;
     ssm_api := fun _ _ => inr sample_other_session;
     json_Marshal := json_Marshal sample_World;
     session_ValidateInputAndStartSession :=
       session_ValidateInputAndStartSession sample_World_returning;
     Cmd_Start := Cmd_Start sample_World;
     signal_delivered := signal_delivered sample_World |}.

Definition sample_ec2 : ec2_Client :=
  {| DescribeInstances := fun _ => inr sample_instances |}.

(** ** The first program, with the external agent only *)

(** The oldest of the three programs: no keep-alive and no stop channel, the
    endpoint computed where the agent is started, and a failure to serialize
    handed back to [main] as an error.  Its [Config] has no [UseBuiltin]
    field; the field of the record here is never read. *)
Module Part000Old.

Definition getInstanceID (client : ec2_Client) (instanceName : string)
  : M (string * option error) :=
  let input := {| Filters := [ {| Filter_Name := Some "tag:Name";
                                  Filter_Values := [instanceName] |} ] |} in
  emit (EvDescribeInstances input);;
  match DescribeInstances client input with
  | inl err => mret (EmptyString, Some err)
  | inr output =>
      found ← getInstanceID_reservations (Reservations output);
      match found with
      | Some id => mret (id, None)
      | None => mret (EmptyString, Some "no running instances found")
      end
  end.

Definition startSessionManagerPlugin (w : World) (response : option StartSessionOutput)
    (region profile instanceID : string) : M (option Process * option error) :=
  match json_Marshal w response with
  | inl err => mret (None, Some err)
  | inr pluginData =>
      let cmd := exec_Command "session-manager-plugin"
                   [ pluginData;
                     region;
                     "StartSession";
                     profile;
                     Sprintf_Target instanceID;
                     "https://ssm." +:+ region +:+ ".amazonaws.com" ] in
      let cmd := {| Cmd_Path := Cmd_Path cmd; Cmd_Args := Cmd_Args cmd;
                    Cmd_SysProcAttr := Some {| Setpgid := true |} |} in
      emit (EvCmdStart cmd);;
      match Cmd_Start w cmd with
      | inl err => mret (None, Some err)
      | inr process => mret (Some process, None)
      end
  end.

Definition main (w : World) (flags : Config) (configFile : string) : M unit :=
  cfg ← resolve w flags configFile;
  when (missing cfg)
       (log_Fatal "All parameters are required. Use --help for more information.");;
  '(awsCfg, err) ← createAWSSession w (Profile cfg) (Region cfg);
  match err with
  | Some e => log_Fatal ("Failed to create AWS session: " +:+ e)
  | None => mret tt
  end;;
  ec2Client ← ec2_NewFromConfig w awsCfg;
  '(instanceID, err) ← getInstanceID ec2Client (InstanceName cfg);
  match err with
  | Some e => log_Fatal ("Failed to get instance ID: " +:+ e)
  | None => mret tt
  end;;
  ssmClient ← ssm_NewFromConfig w awsCfg;
  '(sessionResponse, err) ← startPortForwarding ssmClient instanceID
                              (RemoteHost cfg) (LocalPort cfg) (RemotePort cfg);
  match err with
  | Some e => log_Fatal ("Failed to start port forwarding: " +:+ e)
  | None => mret tt
  end;;
  fmt_Println "Port forwarding session started";;
  '(process, err) ← startSessionManagerPlugin w sessionResponse (Region cfg)
                       (Profile cfg) instanceID;
  set_sessionManagerProcess process;;
  match err with
  | Some e => log_Fatal ("Failed to start Session Manager Plugin: " +:+ e)
  | None => mret tt
  end;;
  started ← get_sessionManagerProcess;
  started ← deref started;
  fmt_Print ("Session Manager Plugin process started with PID: "
             +:+ Sprintf_d (Pid started) +:+ LF);;
  c ← make_chan;
  emit (EvSignalNotify c [Interrupt; SIGTERM]);;
  recv_signal w c;;
  cleanup.

End Part000Old.

(** ** Further specification-side definitions *)

(** An instance that is described and does not run. *)
Definition passed_over (i : Instance) : Prop :=
  is_Some (State i) /\ is_running i = false.

(** A group structure with an instance that the control plane never sends: no
    state at all, behind the running one. *)
Definition sample_ragged : list Reservation :=
  [ {| Instances := [ {| InstanceId := Some "i-0aaa";
                         State := Some {| State_Name := "stopped" |} |};
                      {| InstanceId := Some "i-0bbb";
                         State := Some {| State_Name := "running" |} |} ] |};
    {| Instances := [ {| InstanceId := None; State := None |} ] |} ].

(** The same instances, the nameless one first. *)
Definition sample_ragged_first : list Reservation :=
  [ {| Instances := [ {| InstanceId := None; State := None |} ] |};
    {| Instances := [ {| InstanceId := Some "i-0bbb";
                         State := Some {| State_Name := "running" |} |} ] |} ].

(** The steps of a run, numbered in the order in which [main] is written. *)
Definition stage (e : Event) : option nat :=
  match e with
  | EvLoadDefaultConfig _ _ => Some 0
  | EvEC2NewFromConfig _ => Some 1
  | EvDescribeInstances _ => Some 2
  | EvSSMNewFromConfig _ => Some 3
  | EvStartSession _ => Some 4
  | EvGoKeepAlive _ _ => Some 5
  | EvValidateInputAndStartSession _ | EvCmdStart _ => Some 6
  | EvSignalNotify _ _ => Some 7
  | EvRecv _ => Some 8
  | EvClose _ => Some 9
  | EvKill _ => Some 10
  | _ => None
  end.

(** What a call may carry, given the settings: the profile and the region,
    the name of the instance, the host and the two ports. *)
Definition from_settings (cfg : Config) (e : Event) : Prop :=
  match e with
  | EvLoadDefaultConfig profile region =>
      profile = Profile cfg /\ region = Region cfg
  | EvDescribeInstances input => input = name_filter (InstanceName cfg)
  | EvStartSession input =>
      exists id, input = session_request id (RemoteHost cfg) (LocalPort cfg)
                                         (RemotePort cfg)
  | EvGoKeepAlive localPort _ => localPort = LocalPort cfg
  | _ => True
  end.

(** Settings read from a file, in a world whose file holds the sample
    settings. *)
Definition sample_World_with_file : World :=
  {| ini_Load := fun _ => inr ∅;
     Section_MapTo := fun _ _ => inr sample_Config;
     config_LoadDefaultConfig := config_LoadDefaultConfig sample_World;
     ec2_api := ec2_api sample_World;
     ssm_api := ssm_api sample_World;
     json_Marshal := json_Marshal sample_World;
     session_ValidateInputAndStartSession :=
       session_ValidateInputAndStartSession sample_World;
     Cmd_Start := Cmd_Start sample_World;
     signal_delivered := signal_delivered sample_World |}.

(** A run that goes on from the state [s] with the events [l] and ends in
    [o]. *)
Definition ends_with (r : St * Outcome unit) (s : St) (l : list Event)
    (o : Outcome unit) : Prop :=
  events r = (trace s ++ l)%list /\ outcome r = o.

(** The control plane's answer to the query for the settings' instance name
    holds a first running instance, with the identifier [id]. *)
Definition locates (w : World) (awsCfg : aws_Config) (cfg : Config) (id : string) : Prop :=
  exists output i,
    ec2_api w awsCfg (name_filter (InstanceName cfg)) = inr output /\
    Forall described (enumeration (Reservations output)) /\
    first_running (Reservations output) = Some i /\
    InstanceId i = Some id.

(** The calls up to the instance query, and up to the session request. *)
Definition lookup_calls (cfg : Config) (awsCfg : aws_Config) : list Event :=
  [ EvLoadDefaultConfig (Profile cfg) (Region cfg);
    EvEC2NewFromConfig awsCfg;
    EvDescribeInstances (name_filter (InstanceName cfg)) ].

Definition session_calls (cfg : Config) (awsCfg : aws_Config) (id : string) : list Event :=
  lookup_calls cfg awsCfg ++
  [ EvSSMNewFromConfig awsCfg;
    EvStartSession (session_request id (RemoteHost cfg) (LocalPort cfg) (RemotePort cfg)) ].

(** The session is negotiated: the configuration loads, the instance is
    located, the service answers the request. *)
Definition negotiates (w : World) (cfg : Config) (awsCfg : aws_Config) (id : string)
    (response : StartSessionOutput) : Prop :=
  config_LoadDefaultConfig w (Profile cfg) (Region cfg) = inr awsCfg /\
  locates w awsCfg cfg id /\
  ssm_api w awsCfg (session_request id (RemoteHost cfg) (LocalPort cfg) (RemotePort cfg))
    = inr response.

(** The command that the external start runs. *)
Definition agent_command (descriptor region profile instanceID : string) : Cmd :=
  {| Cmd_Path := "session-manager-plugin";
     Cmd_Args := "session-manager-plugin" ::
                 agent_arguments descriptor region profile instanceID;
     Cmd_SysProcAttr := Some {| Setpgid := true |} |}.

(** Worlds in which one step fails. *)
Definition sample_World_no_credentials : World :=
  {| ini_Load := ini_Load sample_World;
     Section_MapTo := Section_MapTo sample_World;
     config_LoadDefaultConfig := fun _ _ =>
       inl "failed to get shared config profile, default";
     ec2_api := ec2_api sample_World;
     ssm_api := ssm_api sample_World;
     json_Marshal := json_Marshal sample_World;
     session_ValidateInputAndStartSession :=
       session_ValidateInputAndStartSession sample_World;
     Cmd_Start := Cmd_Start sample_World;
     signal_delivered := signal_delivered sample_World |}.

Definition sample_World_ec2 (answer : error + DescribeInstancesOutput) : World :=
  {| ini_Load := ini_Load sample_World;
     Section_MapTo := Section_MapTo sample_World;
     config_LoadDefaultConfig := config_LoadDefaultConfig sample_World;
     ec2_api := fun _ _ => answer;
     ssm_api := ssm_api sample_World;
     json_Marshal := json_Marshal sample_World;
     session_ValidateInputAndStartSession :=
       session_ValidateInputAndStartSession sample_World;
     Cmd_Start := Cmd_Start sample_World;
     signal_delivered := signal_delivered sample_World |}.

Definition sample_World_not_managed : World :=
  {| ini_Load := ini_Load sample_World;
     Section_MapTo := Section_MapTo sample_World;
     config_LoadDefaultConfig := config_LoadDefaultConfig sample_World;
     ec2_api := ec2_api sample_World;
     ssm_api := fun _ _ => inl "TargetNotConnected: i-0bbb is not connected.";
     json_Marshal := json_Marshal sample_World;
     session_ValidateInputAndStartSession :=
       session_ValidateInputAndStartSession sample_World;
     Cmd_Start := Cmd_Start sample_World;
     signal_delivered := signal_delivered sample_World |}.

Definition sample_World_no_json : World :=
  {| ini_Load := ini_Load sample_World;
     Section_MapTo := Section_MapTo sample_World;
     config_LoadDefaultConfig := config_LoadDefaultConfig sample_World;
     ec2_api := ec2_api sample_World;
     ssm_api := ssm_api sample_World;
     json_Marshal := fun _ => inl "json: unsupported value";
     session_ValidateInputAndStartSession :=
       session_ValidateInputAndStartSession sample_World;
     Cmd_Start := Cmd_Start sample_World;
     signal_delivered := signal_delivered sample_World |}.

Definition sample_aws_Config : aws_Config :=
  {| SharedConfigProfile := "default"; ConfigRegion := "us-east-1" |}.

Definition sample_stopped : DescribeInstancesOutput :=
  {| Reservations :=
       [ {| Instances := [ {| InstanceId := Some "i-0aaa";
                              State := Some {| State_Name := "stopped" |} |} ] |} ] |}.

(** The starting and the killing of a process. *)
Definition spawns_or_kills (e : Event) : bool :=
  match e with
  | EvCmdStart _ | EvKill _ => true
  | _ => false
  end.

(** What a run does to the world around it and how it ends: its calls
    outside the process, its kill, its exit. *)
Definition deed (e : Event) : bool :=
  match e with
  | EvKill _ | EvExit _ => true
  | _ => external_call e
  end.

(** The settings with the agent's strategy set. *)
Definition set_UseBuiltin (b : bool) (cfg : Config) : Config :=
  {| Profile := Profile cfg; Region := Region cfg; InstanceName := InstanceName cfg;
     LocalPort := LocalPort cfg; RemoteHost := RemoteHost cfg;
     RemotePort := RemotePort cfg; UseBuiltin := b |}.

(** A world whose settings files all set the strategy to [b]. *)
Definition World_with_UseBuiltin (b : bool) (w : World) : World :=
  {| ini_Load := ini_Load w;
     Section_MapTo := fun section cfg =>
       match Section_MapTo w section cfg with
       | inl err => inl err
       | inr cfg' => inr (set_UseBuiltin b cfg')
       end;
     config_LoadDefaultConfig := config_LoadDefaultConfig w;
     ec2_api := ec2_api w;
     ssm_api := ssm_api w;
     json_Marshal := json_Marshal w;
     session_ValidateInputAndStartSession := session_ValidateInputAndStartSession w;
     Cmd_Start := Cmd_Start w;
     signal_delivered := signal_delivered w |}.


(** The ticks that fire before the stop channel does, and whether it does. *)
Fixpoint ticks_before_stop (fired : list Select) : nat :=
  match fired with
  | TickerC :: rest => S (ticks_before_stop rest)
  | _ => 0
  end.

Fixpoint stop_fires (fired : list Select) : bool :=
  match fired with
  | [] => false
  | StopChan :: _ => true
  | TickerC :: rest => stop_fires rest
  end.

(** The whole of a keeper's trace: the ticker, the probes of the ticks
    before the stop, and the farewell if the stop fires. *)
Definition keeper_trace (net : Net) (sent_text : string) (localPort : Z)
    (fired : list Select) : list Event :=
  [EvNewTicker (30 * time_Second)] ++
  flat_map (probe net sent_text localPort) (seq 0 (ticks_before_stop fired)) ++
  (if stop_fires fired
   then [EvStdout ("Stopping keep-alive routine" +:+ LF); EvTickerStop]
   else []).


(** * Properties *)

(** ** Decimal rendering *)

Lemma Atoi_Sprintf_d (n : Z) : Atoi (Sprintf_d n) = Some n.
Proof.
  unfold Atoi, Sprintf_d.
  rewrite NilZero.isi.
  - simpl. f_equal. apply DecimalZ.of_to.
  - destruct n; simpl; try discriminate.
    intros [= H]. now apply DecimalPos.Unsigned.to_uint_nonnil in H.
  - destruct n; simpl; try discriminate.
    intros [= H]. now apply DecimalPos.Unsigned.to_uint_nonnil in H.
Qed.

(** ** The monad's equations *)

Lemma bind_Returned {A B} (m : M A) (f : A -> M B) s s' a :
  m s = (s', Returned a) -> (m ≫= f) s = f a s'.
Proof. unfold mbind, M_bind. now intros ->. Qed.

Lemma emit_bind {B} (e : Event) (k : M B) s :
  (emit e;; k) s = k (push e s).
Proof. reflexivity. Qed.

(** ** The instance locator *)

Lemma getInstanceID_instances_find (instances : list Instance) s :
  Forall described instances ->
  getInstanceID_instances instances s =
    (s, Returned (List.find is_running instances ≫= InstanceId)).
Proof.
  induction 1 as [|i rest [[st Hst] Hid] _ IH]; [reflexivity|].
  cbn [getInstanceID_instances List.find].
  unfold is_running in *. rewrite Hst in *.
  unfold mbind at 1, M_bind at 1; cbn [deref].
  unfold InstanceStateNameRunning.
  destruct (String.eqb (State_Name st) "running") eqn:E.
  - destruct (Hid eq_refl) as [id Hi]. cbn. rewrite Hi. reflexivity.
  - apply IH.
Qed.

Lemma find_running_id (instances : list Instance) :
  Forall described instances ->
  List.find is_running instances ≫= InstanceId = None ->
  List.find is_running instances = None.
Proof.
  induction 1 as [|i rest [_ Hid] _ IH]; [reflexivity|].
  cbn [List.find]. destruct (is_running i) eqn:E; [|exact IH].
  destruct (Hid eq_refl) as [id Hi]. cbn. rewrite Hi. discriminate.
Qed.

Lemma find_app {A} (p : A -> bool) (l1 l2 : list A) :
  List.find p (l1 ++ l2) =
    match List.find p l1 with
    | Some x => Some x
    | None => List.find p l2
    end.
Proof.
  induction l1 as [|x l1 IH]; [reflexivity|].
  cbn. now destruct (p x).
Qed.

Lemma getInstanceID_reservations_find (rs : list Reservation) s :
  Forall described (enumeration rs) ->
  getInstanceID_reservations rs s =
    (s, Returned (first_running rs ≫= InstanceId)).
Proof.
  unfold first_running, enumeration.
  induction rs as [|r rest IH]; [reflexivity|].
  cbn [fmap list_fmap concat]. intros [Hr Hrest]%Forall_app.
  cbn [getInstanceID_reservations].
  rewrite (bind_Returned _ _ _ _ _ (getInstanceID_instances_find _ s Hr)).
  rewrite find_app.
  destruct (List.find is_running (Instances r) ≫= InstanceId) as [id|] eqn:E.
  - destruct (List.find is_running (Instances r)); [|discriminate].
    rewrite E. reflexivity.
  - rewrite (find_running_id _ Hr E). apply IH, Hrest.
Qed.

(** The scans themselves leave no trace, whatever they meet, and end in a
    result or in a nil dereference. *)
Lemma getInstanceID_instances_run (instances : list Instance) s :
  exists o, getInstanceID_instances instances s = (s, o) /\ scan_outcome o.
Proof.
  unfold scan_outcome.
  induction instances as [|i rest IH]; [eexists; split; [reflexivity|eauto]|].
  cbn [getInstanceID_instances]. unfold mbind at 1, M_bind at 1.
  destruct (State i) as [st|]; cbn [deref]; [|eexists; split; [reflexivity|eauto]].
  destruct (String.eqb _ _); [|exact IH].
  destruct (InstanceId i); eexists; (split; [reflexivity|eauto]).
Qed.

Lemma getInstanceID_reservations_run (rs : list Reservation) s :
  exists o, getInstanceID_reservations rs s = (s, o) /\ scan_outcome o.
Proof.
  induction rs as [|r rest IH]; [eexists; split; [reflexivity|right; eauto]|].
  cbn [getInstanceID_reservations]. unfold mbind, M_bind.
  destruct (getInstanceID_instances_run (Instances r) s) as (o & -> & [->|[[id|] ->]]).
  - eexists; split; [reflexivity|left; reflexivity].
  - eexists; split; [reflexivity|right; eauto].
  - exact IH.
Qed.

Lemma getInstanceID_run (client : ec2_Client) (instanceName : string) (s : St) :
  exists o, getInstanceID client instanceName s =
              (push (EvDescribeInstances (name_filter instanceName)) s, o) /\
            scan_outcome o.
Proof.
  unfold getInstanceID. fold (name_filter instanceName). rewrite emit_bind.
  destruct (DescribeInstances client _) as [err|output].
  - eexists; split; [reflexivity|right; eauto].
  - unfold mbind, M_bind.
    match goal with |- context [getInstanceID_reservations ?rs ?s0] =>
      destruct (getInstanceID_reservations_run rs s0) as (o & -> & [->|[[id|] ->]])
    end; eexists; (split; [reflexivity|]); unfold scan_outcome; eauto.
Qed.

(** C2. getInstanceID issues one query, filtered on the name tag with the
    given name, and never a second one.  When the query fails its error is
    returned as it is.  When it succeeds, and the control plane describes
    its instances in full, the identifier returned is that of the first
    running instance in the order of the groups and of the instances within
    each; without a running instance the result is the error that no running
    instance was found. *)
Theorem getInstanceID_first_running (client : ec2_Client) (instanceName : string) (s : St) :
  trace (fst (getInstanceID client instanceName s)) =
    (trace s ++ [EvDescribeInstances (name_filter instanceName)])%list /\
  (forall err, DescribeInstances client (name_filter instanceName) = inl err ->
     snd (getInstanceID client instanceName s) = Returned (EmptyString, Some err)) /\
  (forall output, DescribeInstances client (name_filter instanceName) = inr output ->
     Forall described (enumeration (Reservations output)) ->
     snd (getInstanceID client instanceName s) =
       match first_running (Reservations output) with
       | Some i => Returned (default EmptyString (InstanceId i), None)
       | None => Returned (EmptyString, Some "No running aws instances found.")
       end /\
     (forall i, first_running (Reservations output) = Some i ->
        is_running i = true /\ is_Some (InstanceId i))).
Proof.
  unfold getInstanceID. fold (name_filter instanceName).
  rewrite emit_bind.
  destruct (DescribeInstances client (name_filter instanceName)) as [err|output].
  - split; [reflexivity|].
    split; [intros ? [= <-]; reflexivity | intros ? [=]].
  - split.
    { unfold mbind, M_bind.
      match goal with |- context [getInstanceID_reservations ?rs ?s0] =>
        destruct (getInstanceID_reservations_run rs s0) as (o & -> & [->|[[id|] ->]])
      end; reflexivity. }
    split; [intros ? [=]|].
    intros ? [= <-] Hd. split.
    + rewrite (bind_Returned _ _ _ _ _ (getInstanceID_reservations_find _ _ Hd)).
      destruct (first_running (Reservations output)) as [i|] eqn:F; [|reflexivity].
      apply find_some in F as [Hin Hrun].
      rewrite Forall_forall in Hd.
      destruct (Hd i) as [_ Hid]; [now apply list_elem_of_In|].
      destruct (Hid Hrun) as [id Hi]. cbn. rewrite Hi. reflexivity.
    + intros i F. apply find_some in F as [Hin Hrun].
      rewrite Forall_forall in Hd.
      destruct (Hd i) as [_ Hid]; [now apply list_elem_of_In|].
      split; [exact Hrun | exact (Hid Hrun)].
Qed.

Lemma getInstanceID_first_running_witness :
  snd (getInstanceID sample_ec2 "db-bastion" St0) = Returned ("i-0bbb", None).
Proof.
  destruct (getInstanceID_first_running sample_ec2 "db-bastion" St0) as (_ & _ & H).
  destruct (H sample_instances eq_refl) as [Hret _].
  - repeat constructor; cbn; eauto.
  - exact Hret.
Defined.

(** ** The session negotiator *)

Lemma session_request_parameters (instanceID remoteHost : string) (localPort remotePort : Z) :
  Parameters (session_request instanceID remoteHost localPort remotePort) =
    <["portNumber" := [Sprintf_d remotePort]]>
    (<["host" := [remoteHost]]>
    (<["localPortNumber" := [Sprintf_d localPort]]> ∅)).
Proof.
  apply map_eq. intros k. cbn.
  rewrite !lookup_insert. repeat case_decide; subst; done.
Qed.

(** C3. startPortForwarding sends one session request: its target is the
    instance identifier, its document is the one for port forwarding to a
    remote host, and its parameters are exactly the three keys
    localPortNumber, host and portNumber, holding the decimal string of the
    local port, the remote host, and the decimal string of the remote port.
    Both decimal strings read back as the ports.  The answer of the service
    is handed back as it is. *)
Theorem startPortForwarding_request (client : ssm_Client) (instanceID remoteHost : string)
    (localPort remotePort : Z) (s : St) :
  let input := session_request instanceID remoteHost localPort remotePort in
  let r := startPortForwarding client instanceID remoteHost localPort remotePort s in
  trace (fst r) = (trace s ++ [EvStartSession input])%list /\
  snd r = Returned match StartSession client input with
                   | inl err => (None, Some err)
                   | inr output => (Some output, None)
                   end /\
  Target input = Some instanceID /\
  DocumentName input = Some "AWS-StartPortForwardingSessionToRemoteHost" /\
  dom (Parameters input) = {[ "localPortNumber"; "host"; "portNumber" ]} /\
  Parameters input !! "localPortNumber" = Some [Sprintf_d localPort] /\
  Parameters input !! "host" = Some [remoteHost] /\
  Parameters input !! "portNumber" = Some [Sprintf_d remotePort] /\
  Atoi (Sprintf_d localPort) = Some localPort /\
  Atoi (Sprintf_d remotePort) = Some remotePort.
Proof.
  intros input r.
  assert (Hr : r = startPortForwarding client instanceID remoteHost localPort remotePort s)
    by reflexivity.
  unfold startPortForwarding in Hr.
  rewrite <- (session_request_parameters instanceID remoteHost) in Hr.
  change {| Target := _; DocumentName := _; Parameters := _ |} with input in Hr.
  rewrite emit_bind in Hr.
  repeat split.
  - rewrite Hr. now destruct (StartSession client input).
  - rewrite Hr. now destruct (StartSession client input).
  - apply Atoi_Sprintf_d.
  - apply Atoi_Sprintf_d.
Qed.

Lemma startPortForwarding_run (client : ssm_Client) (instanceID remoteHost : string)
    (localPort remotePort : Z) (s : St) :
  startPortForwarding client instanceID remoteHost localPort remotePort s =
    (push (EvStartSession (session_request instanceID remoteHost localPort remotePort)) s,
     Returned match StartSession client
                      (session_request instanceID remoteHost localPort remotePort) with
              | inl err => (None, Some err)
              | inr output => (Some output, None)
              end).
Proof.
  unfold startPortForwarding.
  rewrite <- (session_request_parameters instanceID remoteHost).
  change {| Target := _; DocumentName := _; Parameters := _ |}
    with (session_request instanceID remoteHost localPort remotePort).
  rewrite emit_bind.
  now destruct (StartSession client _).
Qed.

(** ** Running [main] along all of its paths *)

#[local] Arguments getInstanceID : simpl never.
#[local] Arguments startPortForwarding : simpl never.
#[local] Arguments session_request : simpl never.
#[local] Arguments String.append : simpl never.
#[local] Arguments Sprintf_d : simpl never.
#[local] Arguments Sprintf_Target : simpl never.
#[local] Arguments missing : simpl never.
#[local] Arguments resolve : simpl never.

Ltac unfold_core :=
  unfold go_run, events, outcome, Part000.main, MainGo.main,
    createAWSSession, ec2_NewFromConfig, ssm_NewFromConfig,
    startSessionManagerPluginBuiltin, startSessionManagerPluginExternal,
    exec_Command, marshal_or_die, cleanup, recv_signal, when, log_Fatal,
    fmt_Println, fmt_Print, make_chan, get_sessionManagerProcess,
    set_sessionManagerProcess, deref, block, os_Exit, emit, mbind, M_bind,
    mret, M_ret.

Ltac unfold_program :=
  unfold go_run, events, outcome, Part000.main, MainGo.main, resolve,
    loadConfigFromFile;
  unfold_core.

(** The scrutinee on which evaluation is stuck. *)
Ltac innermost x :=
  lazymatch x with
  | context [match ?y with _ => _ end] => innermost y
  | _ => x
  end.

Ltac path_step :=
  match goal with
  | |- context [getInstanceID ?c ?n ?s] =>
      let o := fresh "o" in
      let H := fresh "H" in
      let Ho := fresh "Ho" in
      destruct (getInstanceID_run c n s) as (o & H & Ho);
      rewrite H; clear H;
      destruct Ho as [-> | [[? [?|]] ->]]
  | |- context [startPortForwarding ?c ?i ?h ?l ?r ?s] =>
      rewrite !startPortForwarding_run
  | |- context [match ?x with _ => _ end] =>
      let y := innermost x in destruct y eqn:?
  end.

Ltac paths := unfold_program; repeat (cbn; path_step); cbn.

(** ** Validation of the settings *)

Lemma missing_iff (cfg : Config) : missing cfg = true <-> some_field_missing cfg.
Proof.
  unfold missing, some_field_missing.
  rewrite !orb_true_iff, !String.eqb_eq, !Z.eqb_eq. tauto.
Qed.

Lemma resolve_run (w : World) (flags : Config) (configFile : string) (s : St) (cfg : Config) :
  resolve w flags configFile St0 = (s, Returned cfg) ->
  (s = St0 /\ cfg = flags /\ configFile = EmptyString) \/
  (s = push (EvIniLoad configFile) St0 /\ configFile <> EmptyString).
Proof.
  paths; intros [= <- <-] || intros [=].
  - right. split; [reflexivity|]. intros ->. discriminate.
  - left. repeat split. now apply negb_false_iff, String.eqb_eq in Heqb.
Qed.

Lemma main_missing_run (w : World) (flags : Config) (configFile : string) (s : St) (cfg : Config) :
  resolve w flags configFile St0 = (s, Returned cfg) ->
  missing cfg = true ->
  go_run (MainGo.main w flags configFile) =
    (push (EvExit 1)
       (push (EvLog "Missing parameters. Use --help for more information.") s),
     Exited 1) /\
  go_run (Part000.main w flags configFile) =
    (push (EvExit 1)
       (push (EvLog "All parameters are required. Use --help for more information.") s),
     Exited 1).
Proof.
  intros Hres Hmiss. unfold go_run, MainGo.main, Part000.main.
  unfold mbind, M_bind. rewrite Hres.
  unfold when. rewrite Hmiss. split; reflexivity.
Qed.

Lemma resolve_quiet (w : World) (flags : Config) (configFile : string) (s : St) (cfg : Config) :
  resolve w flags configFile St0 = (s, Returned cfg) ->
  Forall (fun e => external_call e = false) (trace s).
Proof.
  intros [(-> & _)|(-> & _)]%resolve_run; repeat constructor.
Qed.

(** C1. When one of the six settings is empty or zero, each of the two
    programs logs its diagnostic and exits with status 1, and that is all it
    does after reading its settings: no AWS configuration is loaded, no
    client is made, no instance is queried, no session is requested, no
    agent is started. *)
Theorem missing_setting_refused (w : World) (flags : Config) (configFile : string)
    (s : St) (cfg : Config) :
  resolve w flags configFile St0 = (s, Returned cfg) ->
  some_field_missing cfg ->
  outcome (go_run (MainGo.main w flags configFile)) = Exited 1 /\
  outcome (go_run (Part000.main w flags configFile)) = Exited 1 /\
  events (go_run (MainGo.main w flags configFile)) =
    (trace s ++ [EvLog "Missing parameters. Use --help for more information.";
                 EvExit 1])%list /\
  events (go_run (Part000.main w flags configFile)) =
    (trace s ++ [EvLog "All parameters are required. Use --help for more information.";
                 EvExit 1])%list /\
  Forall (fun e => external_call e = false)
         (events (go_run (MainGo.main w flags configFile))) /\
  Forall (fun e => external_call e = false)
         (events (go_run (Part000.main w flags configFile))).
Proof.
  intros Hres Hmiss%missing_iff.
  destruct (main_missing_run w flags configFile s cfg Hres Hmiss) as [-> ->].
  pose proof (resolve_quiet _ _ _ _ _ Hres) as Hq.
  unfold events, outcome, push; cbn.
  rewrite <- !app_assoc; cbn.
  repeat split; apply Forall_app; split; auto; repeat constructor.
Qed.

Lemma missing_setting_refused_witness :
  events (go_run (MainGo.main sample_World sample_no_region EmptyString)) =
    [EvLog "Missing parameters. Use --help for more information."; EvExit 1] /\
  events (go_run (Part000.main sample_World sample_no_region EmptyString)) =
    [EvLog "All parameters are required. Use --help for more information."; EvExit 1].
Proof.
  destruct (missing_setting_refused sample_World sample_no_region EmptyString
              St0 sample_no_region) as (_ & _ & H1 & H2 & _).
  - reflexivity.
  - right; left; reflexivity.
  - split; [exact H1 | exact H2].
Defined.

(** What validation lets through. *)
Lemma validation_passes_port_70000 :
  missing sample_wide_ports = false /\
  In (EvStartSession (session_request "i-0bbb" "db.internal" 70000 (-1)))
     (events (go_run (MainGo.main sample_World sample_wide_ports EmptyString))) /\
  In (EvStartSession (session_request "i-0bbb" "db.internal" 70000 (-1)))
     (events (go_run (Part000.main sample_World sample_wide_ports EmptyString))) /\
  ~ valid_port (LocalPort sample_wide_ports) /\
  ~ valid_port (RemotePort sample_wide_ports).
Proof.
  split; [reflexivity|].
  split; [vm_compute; tauto|].
  split; [vm_compute; tauto|].
  unfold valid_port; cbn. lia.
Qed.

Lemma in_push (e a : Event) (s : St) :
  In e (trace (push a s)) <-> In e (trace s) \/ e = a.
Proof.
  unfold push; cbn. rewrite in_app_iff. cbn. intuition congruence.
Qed.

Lemma missing_false (cfg : Config) :
  missing cfg = false <-> ~ some_field_missing cfg.
Proof.
  rewrite <- missing_iff. now destruct (missing cfg).
Qed.

(** C8, as the program has it.  Whenever one of the two programs, having read
    its settings, goes on to any call outside the process, none of the six
    settings is empty or zero: in particular both ports differ from zero.
    That is all the validation asks of a port: it lets a setting through
    exactly when no field is empty or zero, whatever the size or the sign of
    the ports. *)
Theorem validated_ports_nonzero (w : World) (flags : Config) (configFile : string)
    (s : St) (cfg : Config) (e : Event) :
  resolve w flags configFile St0 = (s, Returned cfg) ->
  In e (events (go_run (MainGo.main w flags configFile))) \/
  In e (events (go_run (Part000.main w flags configFile))) ->
  external_call e = true ->
  (LocalPort cfg <> 0%Z /\ RemotePort cfg <> 0%Z /\ ~ some_field_missing cfg) /\
  (forall cfg' : Config, missing cfg' = false <-> ~ some_field_missing cfg').
Proof.
  intros Hres Hin He. split; [|exact missing_false].
  assert (Hm : missing cfg = false).
  { destruct (missing cfg) eqn:Hmiss; [exfalso|reflexivity].
    destruct (main_missing_run w flags configFile s cfg Hres Hmiss) as [E1 E2].
    pose proof (resolve_quiet _ _ _ _ _ Hres) as Hq.
    rewrite E1, E2 in Hin. unfold events in Hin; cbn [fst] in Hin.
    rewrite Forall_forall in Hq.
    assert (In e (trace s) -> False).
    { intros Hi%list_elem_of_In%Hq. congruence. }
    destruct Hin as [Hin|Hin];
      apply in_push in Hin as [Hin| ->]; try discriminate;
      apply in_push in Hin as [Hin| ->]; try discriminate; auto. }
  apply missing_false in Hm. unfold some_field_missing in *. tauto.
Qed.

Lemma validated_ports_nonzero_witness :
  LocalPort sample_wide_ports <> 0%Z /\ RemotePort sample_wide_ports <> 0%Z.
Proof.
  destruct (validated_ports_nonzero sample_World sample_wide_ports EmptyString St0
              sample_wide_ports (EvLoadDefaultConfig "default" "us-east-1"))
    as [(H1 & H2 & _) _].
  - reflexivity.
  - left. vm_compute. tauto.
  - reflexivity.
  - split; [exact H1 | exact H2].
Defined.

(** ** The argument vector of the agent *)

Lemma getInstanceID_located (client : ec2_Client) (instanceName : string) (s : St)
    (output : DescribeInstancesOutput) (i : Instance) (id : string) :
  DescribeInstances client (name_filter instanceName) = inr output ->
  Forall described (enumeration (Reservations output)) ->
  first_running (Reservations output) = Some i ->
  InstanceId i = Some id ->
  getInstanceID client instanceName s =
    (push (EvDescribeInstances (name_filter instanceName)) s, Returned (id, None)).
Proof.
  intros Hq Hd Hf Hi.
  unfold getInstanceID. fold (name_filter instanceName).
  rewrite emit_bind, Hq.
  rewrite (bind_Returned _ _ _ _ _ (getInstanceID_reservations_find _ _ Hd)).
  rewrite Hf. cbn. rewrite Hi. reflexivity.
Qed.

(** C4. When the settings are complete, the instance is located and the
    session is negotiated and serialized, each program starts the agent
    once.  The in-process start hands it the placeholder name followed by the
    descriptor, the region, the word StartSession, the profile, the target
    object of the located instance and the endpoint of the region; the
    external start runs the command session-manager-plugin, in a process
    group of its own, with the very same arguments after its name.  The
    fourth element is StartSession and the sixth the target object in both. *)
Theorem launch_argument_vector (w : World) (flags : Config) (configFile : string)
    (s : St) (cfg : Config) (awsCfg : aws_Config) (output : DescribeInstancesOutput)
    (i : Instance) (id : string) (response : StartSessionOutput) (descriptor : string) :
  resolve w flags configFile St0 = (s, Returned cfg) ->
  missing cfg = false ->
  config_LoadDefaultConfig w (Profile cfg) (Region cfg) = inr awsCfg ->
  ec2_api w awsCfg (name_filter (InstanceName cfg)) = inr output ->
  Forall described (enumeration (Reservations output)) ->
  first_running (Reservations output) = Some i ->
  InstanceId i = Some id ->
  ssm_api w awsCfg (session_request id (RemoteHost cfg) (LocalPort cfg) (RemotePort cfg))
    = inr response ->
  json_Marshal w (Some response) = inr descriptor ->
  let arguments := agent_arguments descriptor (Region cfg) (Profile cfg) id in
  let builtin := EvValidateInputAndStartSession ("aws-go-forward" :: arguments) in
  let external :=
    EvCmdStart {| Cmd_Path := "session-manager-plugin";
                  Cmd_Args := "session-manager-plugin" :: arguments;
                  Cmd_SysProcAttr := Some {| Setpgid := true |} |} in
  List.filter launches (events (go_run (MainGo.main w flags configFile))) = [builtin] /\
  List.filter launches (events (go_run (Part000.main w flags configFile))) =
    [if UseBuiltin cfg then builtin else external] /\
  ("aws-go-forward" :: arguments) !! 3 = Some "StartSession" /\
  ("session-manager-plugin" :: arguments) !! 3 = Some "StartSession" /\
  ("aws-go-forward" :: arguments) !! 5
    = Some ("{" +:+ DQ +:+ "Target" +:+ DQ +:+ ":" +:+ DQ +:+ id +:+ DQ +:+ "}") /\
  ("session-manager-plugin" :: arguments) !! 5
    = Some ("{" +:+ DQ +:+ "Target" +:+ DQ +:+ ":" +:+ DQ +:+ id +:+ DQ +:+ "}") /\
  length ("aws-go-forward" :: arguments) = 7.
Proof.
  intros Hres Hm Hcfg Hq Hd Hf Hi Hssm Hjson arguments builtin external.
  assert (Hquiet : List.filter launches (trace s) = []).
  { apply resolve_run in Hres as [(-> & _)|(-> & _)]; reflexivity. }
  assert (Hloc := fun s0 =>
    getInstanceID_located {| DescribeInstances := ec2_api w awsCfg |}
      (InstanceName cfg) s0 output i id Hq Hd Hf Hi).
  repeat split.
  - unfold_core. rewrite Hres. cbn. rewrite Hm. cbn. rewrite Hcfg. cbn.
    rewrite Hloc. cbn.
    rewrite startPortForwarding_run. cbn. rewrite Hssm. cbn. rewrite Hjson. cbn.
    repeat (path_step; cbn); rewrite ?List.filter_app, Hquiet; reflexivity.
  - unfold_core. rewrite Hres. cbn. rewrite Hm. cbn. rewrite Hcfg. cbn.
    rewrite Hloc. cbn.
    rewrite startPortForwarding_run. cbn. rewrite Hssm. cbn.
    destruct (UseBuiltin cfg); cbn; rewrite Hjson; cbn;
    repeat (path_step; cbn); rewrite ?List.filter_app, Hquiet; reflexivity.
Qed.

Lemma launch_argument_vector_witness :
  List.filter launches
    (events (go_run (Part000.main sample_World sample_Config EmptyString))) =
  [EvCmdStart
     {| Cmd_Path := "session-manager-plugin";
        Cmd_Args := "session-manager-plugin" ::
                    agent_arguments (sample_json sample_session)
                                    "us-east-1" "default" "i-0bbb";
        Cmd_SysProcAttr := Some {| Setpgid := true |} |}].
Proof.
  refine (proj1 (proj2 (launch_argument_vector sample_World sample_Config EmptyString
            St0 sample_Config
            {| SharedConfigProfile := "default"; ConfigRegion := "us-east-1" |}
            sample_instances
            {| InstanceId := Some "i-0bbb"; State := Some {| State_Name := "running" |} |}
            "i-0bbb" sample_session (sample_json sample_session)
            _ _ _ _ _ _ _ _ _))); try reflexivity.
  repeat constructor; cbn; eauto.
Defined.

(** ** The error of the in-process start *)

Ltac log_leaf :=
  let H := fresh "H" in
  intros H;
  repeat (destruct H as [H|H];
          [try discriminate H; injection H as <-; reflexivity|]);
  contradiction.

(** C10. Whenever startSessionManagerPluginBuiltin returns, the error it
    returns is nil; a failure to serialize the response ends the process
    inside it, with status 1.  So no run of either program logs the message
    that guards its call in main. *)
Theorem builtin_error_is_nil (w : World) :
  (forall response region profile instanceID ssmEndpoint s err,
     snd (startSessionManagerPluginBuiltin w response region profile instanceID
            ssmEndpoint s) = Returned err ->
     err = None) /\
  (forall response region profile instanceID ssmEndpoint s e,
     json_Marshal w response = inl e ->
     startSessionManagerPluginBuiltin w response region profile instanceID ssmEndpoint s =
       (push (EvExit 1) (push (EvLog ("Failed to marshal response: " +:+ e)) s),
        Exited 1)) /\
  (forall flags configFile msg,
     In (EvLog msg) (events (go_run (MainGo.main w flags configFile))) \/
     In (EvLog msg) (events (go_run (Part000.main w flags configFile))) ->
     String.prefix "Failed to start Session Manager Plugin builtin: " msg = false).
Proof.
  split; [|split].
  - intros response region profile instanceID ssmEndpoint s err.
    unfold_core. repeat (cbn; path_step); cbn; congruence.
  - intros response region profile instanceID ssmEndpoint s e He.
    unfold_core. rewrite He. reflexivity.
  - intros flags configFile msg [H|H]; revert H; paths; log_leaf.
Qed.

Lemma builtin_error_is_nil_witness :
  snd (startSessionManagerPluginBuiltin sample_World_returning (Some sample_session)
         "us-east-1" "default" "i-0bbb" "https://ssm.us-east-1.amazonaws.com" St0)
    = Returned None /\
  (None : option error) = None.
Proof.
  split; [reflexivity|].
  apply (proj1 (builtin_error_is_nil sample_World_returning) (Some sample_session)
           "us-east-1" "default" "i-0bbb" "https://ssm.us-east-1.amazonaws.com" St0 None).
  reflexivity.
Defined.

(** ** The liveness keeper *)

Lemma filter_flat_map {A B} (f : B -> bool) (g : A -> list B) (l : list A) :
  List.filter f (flat_map g l) = flat_map (fun x => List.filter f (g x)) l.
Proof.
  induction l as [|x l IH]; [reflexivity|].
  cbn. now rewrite List.filter_app, IH.
Qed.

Lemma flat_map_select {A B} (ok : A -> bool) (b : B) (l : list A) :
  flat_map (fun x => if ok x then [b] else []) l
    = repeat b (length (List.filter ok l)).
Proof.
  induction l as [|x l IH]; [reflexivity|].
  cbn. destruct (ok x); cbn; now rewrite IH.
Qed.

Lemma flat_map_single {A B} (b : B) (l : list A) :
  flat_map (fun _ => [b]) l = repeat b (length l).
Proof.
  induction l as [|x l IH]; [reflexivity|]. cbn. now rewrite IH.
Qed.

Lemma extend_nil (s : St) : extend [] s = s.
Proof. destruct s. unfold extend; cbn. now rewrite app_nil_r. Qed.

Lemma extend_extend (l1 l2 : list Event) (s : St) :
  extend l2 (extend l1 s) = extend (l1 ++ l2) s.
Proof. unfold extend; cbn. now rewrite app_assoc. Qed.

Section KeepAliveFacts.

Variable net : Net.
Variable sent_text : string.
Variable localPort : Z.

(** One tick of the loop does one probe and goes back to the [select],
    whatever the probe met. *)
Lemma KeepAlive_loop_tick (k : nat) (fired : list Select) (s : St) :
  KeepAlive_loop net (fmt_Print sent_text) localPort k (TickerC :: fired) s =
  KeepAlive_loop net (fmt_Print sent_text) localPort (S k) fired
    (extend (probe net sent_text localPort k) s).
Proof.
  cbn [KeepAlive_loop]. unfold probe. fold (probe_address localPort).
  rewrite emit_bind.
  destruct (net_Dial net k "tcp" (probe_address localPort)) as [err|].
  - unfold fmt_Print. rewrite emit_bind. unfold push, extend; cbn.
    now rewrite <- app_assoc.
  - rewrite emit_bind.
    destruct (Conn_Write net k LF) as [err|];
      unfold fmt_Print, mbind, M_bind, emit, push, extend; cbn;
      now rewrite <- !app_assoc.
Qed.

Lemma KeepAlive_loop_ticks (n k : nat) (fired : list Select) (s : St) :
  KeepAlive_loop net (fmt_Print sent_text) localPort k (repeat TickerC n ++ fired) s =
  KeepAlive_loop net (fmt_Print sent_text) localPort (k + n) fired
    (extend (flat_map (probe net sent_text localPort) (seq k n)) s).
Proof.
  revert k s. induction n as [|n IH]; intros k s.
  - cbn [repeat app seq flat_map]. now rewrite extend_nil, Nat.add_0_r.
  - cbn [repeat app seq flat_map].
    rewrite KeepAlive_loop_tick, IH, extend_extend.
    now rewrite Nat.add_succ_comm.
Qed.

(** The function from its start to its return on the stop channel. *)
Lemma KeepAlive_with_stopped (n : nat) (rest : list Select) :
  KeepAlive_with net (fmt_Print sent_text) localPort
      (repeat TickerC n ++ StopChan :: rest) St0 =
  (extend ([EvNewTicker (30 * time_Second)] ++
           flat_map (probe net sent_text localPort) (seq 0 n) ++
           [EvStdout ("Stopping keep-alive routine" +:+ LF); EvTickerStop]) St0,
   Returned tt).
Proof.
  unfold KeepAlive_with. rewrite emit_bind.
  unfold mbind at 1, M_bind at 1.
  rewrite KeepAlive_loop_ticks. cbn [KeepAlive_loop].
  unfold fmt_Println, emit, push, extend; cbn.
  now rewrite <- !app_assoc.
Qed.

(** The function while no stop has fired. *)
Lemma KeepAlive_with_waiting (n : nat) :
  KeepAlive_with net (fmt_Print sent_text) localPort (repeat TickerC n) St0 =
  (extend ([EvNewTicker (30 * time_Second)] ++
           flat_map (probe net sent_text localPort) (seq 0 n)) St0,
   Blocked).
Proof.
  unfold KeepAlive_with. rewrite emit_bind.
  unfold mbind at 1, M_bind at 1.
  rewrite <- (app_nil_r (repeat TickerC n)).
  rewrite KeepAlive_loop_ticks. cbn [KeepAlive_loop].
  unfold block, push, extend; cbn. reflexivity.
Qed.

Lemma probes_dials (l : list nat) :
  List.filter is_dial (flat_map (probe net sent_text localPort) l) =
  repeat (EvDial "tcp" (probe_address localPort)) (length l).
Proof.
  rewrite filter_flat_map, <- flat_map_single.
  apply flat_map_ext. intros k. unfold probe. cbn.
  now destruct (net_Dial net k "tcp" (probe_address localPort)).
Qed.

Lemma probes_writes (l : list nat) :
  List.filter is_write (flat_map (probe net sent_text localPort) l) =
  repeat (EvConnWrite LF) (length (List.filter (dial_ok net localPort) l)).
Proof.
  rewrite filter_flat_map, <- flat_map_select.
  apply flat_map_ext. intros k. unfold probe, dial_ok. cbn.
  now destruct (net_Dial net k "tcp" (probe_address localPort)).
Qed.

Lemma probes_closes (l : list nat) :
  List.filter is_close (flat_map (probe net sent_text localPort) l) =
  repeat EvConnClose (length (List.filter (dial_ok net localPort) l)).
Proof.
  rewrite filter_flat_map, <- flat_map_select.
  apply flat_map_ext. intros k. unfold probe, dial_ok. cbn.
  now destruct (net_Dial net k "tcp" (probe_address localPort)).
Qed.

End KeepAliveFacts.

(** C5. KeepAlive of main.go, on a ticker of 30 seconds.  Take any answers
    of the local port, n ticks, and then the stop channel (and whatever
    might fire after it).  The function does, tick by tick, one connection
    attempt to 127.0.0.1 at the local port, followed after a success by
    one write of a single newline and one close, and after a failure by a
    printed line only; it then prints that it stops, stops its ticker and
    returns, taking no later case.  So there are exactly n attempts, and as
    many writes and closes as attempts that succeeded.  Without the stop
    the same n attempts are made and the function is still waiting:
    no failure ends the loop. *)
Theorem KeepAlive_probes_each_tick (net : Net) (localPort : Z) (n : nat)
    (rest : list Select) :
  let address := "127.0.0.1:" +:+ Sprintf_d localPort in
  let stopped := MainGo.KeepAlive net localPort (repeat TickerC n ++ StopChan :: rest) St0 in
  let waiting := MainGo.KeepAlive net localPort (repeat TickerC n) St0 in
  let succeeded := length (List.filter (dial_ok net localPort) (seq 0 n)) in
  trace (fst stopped) =
    ([EvNewTicker 30000000000] ++
     flat_map (probe net "." localPort) (seq 0 n) ++
     [EvStdout ("Stopping keep-alive routine" +:+ LF); EvTickerStop])%list /\
  snd stopped = Returned tt /\
  trace (fst waiting) =
    ([EvNewTicker 30000000000] ++ flat_map (probe net "." localPort) (seq 0 n))%list /\
  snd waiting = Blocked /\
  List.filter is_dial (trace (fst stopped)) = repeat (EvDial "tcp" address) n /\
  List.filter is_dial (trace (fst waiting)) = repeat (EvDial "tcp" address) n /\
  List.filter is_write (trace (fst stopped)) = repeat (EvConnWrite LF) succeeded /\
  List.filter is_close (trace (fst stopped)) = repeat EvConnClose succeeded /\
  String.length LF = 1.
Proof.
  intros address stopped waiting succeeded.
  unfold stopped, waiting, MainGo.KeepAlive.
  rewrite KeepAlive_with_stopped, KeepAlive_with_waiting.
  cbn [fst snd extend trace St0 app].
  repeat split.
  - cbn [List.filter is_dial]. rewrite List.filter_app, probes_dials.
    cbn. now rewrite app_nil_r, length_seq.
  - cbn [List.filter is_dial]. rewrite probes_dials. now rewrite length_seq.
  - cbn [List.filter is_write]. rewrite List.filter_app, probes_writes.
    cbn. now rewrite app_nil_r.
  - cbn [List.filter is_close]. rewrite List.filter_app, probes_closes.
    cbn. now rewrite app_nil_r.
Qed.

(** ** Shutdown *)

(** C7, on the code.  In both programs the in-process start of the agent is
    a call on the path of main itself, before the signal channel is even
    made: when the agent keeps that call, the run stays there, and neither
    the registration for signals, nor the wait, nor the firing of the stop
    channel, nor the kill takes place, whether or not a signal is delivered. *)
Theorem teardown_waits_for_agent (w : World) (flags : Config) (configFile : string)
    (args : list string) :
  session_ValidateInputAndStartSession w args = AgentBlocks ->
  (In (EvValidateInputAndStartSession args)
      (events (go_run (MainGo.main w flags configFile))) ->
   outcome (go_run (MainGo.main w flags configFile)) = Blocked /\
   List.filter teardown (events (go_run (MainGo.main w flags configFile))) = []) /\
  (In (EvValidateInputAndStartSession args)
      (events (go_run (Part000.main w flags configFile))) ->
   outcome (go_run (Part000.main w flags configFile)) = Blocked /\
   List.filter teardown (events (go_run (Part000.main w flags configFile))) = []).
Proof.
  intros Hblocks. split; paths; intros H;
    repeat (destruct H as [H|H]; [try discriminate H|]); try contradiction;
    try (injection H as <-; congruence);
    (split; reflexivity).
Qed.

Lemma teardown_waits_for_agent_witness :
  signal_delivered sample_World = Some Interrupt /\
  outcome (go_run (MainGo.main sample_World sample_builtin EmptyString)) = Blocked /\
  List.filter teardown
    (events (go_run (MainGo.main sample_World sample_builtin EmptyString))) = [] /\
  outcome (go_run (Part000.main sample_World sample_builtin EmptyString)) = Blocked /\
  List.filter teardown
    (events (go_run (Part000.main sample_World sample_builtin EmptyString))) = [].
Proof.
  split; [reflexivity|].
  destruct (teardown_waits_for_agent sample_World sample_builtin EmptyString
              ("aws-go-forward" ::
               agent_arguments (sample_json sample_session) "us-east-1" "default" "i-0bbb")
              eq_refl) as [H1 H2].
  destruct H1 as [? ?]; [vm_compute; tauto|].
  destruct H2 as [? ?]; [vm_compute; tauto|].
  tauto.
Defined.




(** ** The session descriptor *)





(** The two runs of the witness do differ, in the argument vector. *)
Example descriptors_differ :
  List.filter launches
    (events (go_run (Part000.main sample_World_returning sample_builtin EmptyString))) <>
  List.filter launches
    (events (go_run (Part000.main sample_World_other_session sample_builtin EmptyString))).
Proof. vm_compute. discriminate. Qed.

(** A keeper whose second probe is refused and whose fourth cannot write. *)
Example KeepAlive_sample :
  let net := {| net_Dial := fun k _ _ =>
                  if Nat.eqb k 1 then Some "connection refused" else None;
                Conn_Write := fun k _ =>
                  if Nat.eqb k 3 then Some "broken pipe" else None |} in
  List.filter (fun e => is_dial e || is_write e || is_close e)
    (trace (fst (MainGo.KeepAlive net 3306
                   [TickerC; TickerC; TickerC; TickerC; StopChan; TickerC] St0))) =
  [ EvDial "tcp" "127.0.0.1:3306"; EvConnWrite LF; EvConnClose;
    EvDial "tcp" "127.0.0.1:3306";
    EvDial "tcp" "127.0.0.1:3306"; EvConnWrite LF; EvConnClose;
    EvDial "tcp" "127.0.0.1:3306"; EvConnWrite LF; EvConnClose ].
Proof. reflexivity. Qed.
(** * Further properties *)

(** ** The scan of getInstanceID *)

Lemma getInstanceID_instances_app (l1 l2 : list Instance) (s : St) :
  getInstanceID_instances (l1 ++ l2) s =
    match getInstanceID_instances l1 s with
    | (s', Returned None) => getInstanceID_instances l2 s'
    | r => r
    end.
Proof.
  induction l1 as [|i l1 IH]; [reflexivity|].
  cbn [app getInstanceID_instances]. unfold mbind at 1 3, M_bind at 1 3.
  destruct (State i) as [st|]; cbn [deref]; [|reflexivity].
  destruct (String.eqb _ _); [|exact IH].
  now destruct (InstanceId i).
Qed.

(** The two nested loops are one loop over the instances of all groups in
    order, nil dereferences included. *)
Lemma getInstanceID_reservations_flat (rs : list Reservation) (s : St) :
  getInstanceID_reservations rs s = getInstanceID_instances (enumeration rs) s.
Proof.
  unfold enumeration. revert s.
  induction rs as [|r rest IH]; intros s; [reflexivity|].
  cbn [getInstanceID_reservations fmap list_fmap concat].
  rewrite getInstanceID_instances_app. unfold mbind, M_bind.
  destruct (getInstanceID_instances (Instances r) s) as [s' [[id|]| | |]];
    try reflexivity.
  exact (IH s').
Qed.

(** X1. What getInstanceID returns depends on the groups of the
    answer only through the order of their instances: two answers that list
    the same instances in the same order, grouped in whatever way, give the
    same result, be it an identifier, the error or a nil dereference. *)
Theorem getInstanceID_grouping (client1 client2 : ec2_Client) (instanceName : string)
    (output1 output2 : DescribeInstancesOutput) (s : St) :
  DescribeInstances client1 (name_filter instanceName) = inr output1 ->
  DescribeInstances client2 (name_filter instanceName) = inr output2 ->
  enumeration (Reservations output1) = enumeration (Reservations output2) ->
  getInstanceID client1 instanceName s = getInstanceID client2 instanceName s /\
  Part000Old.getInstanceID client1 instanceName s =
    Part000Old.getInstanceID client2 instanceName s.
Proof.
  intros H1 H2 He.
  unfold getInstanceID, Part000Old.getInstanceID. fold (name_filter instanceName).
  rewrite !emit_bind, H1, H2. unfold mbind, M_bind.
  rewrite !getInstanceID_reservations_flat, He. split; reflexivity.
Qed.

Lemma getInstanceID_grouping_witness :
  getInstanceID sample_ec2 "db-bastion" St0 =
  getInstanceID
    {| DescribeInstances := fun _ =>
         inr {| Reservations :=
                  [ {| Instances := enumeration (Reservations sample_instances) |} ] |} |}
    "db-bastion" St0.
Proof.
  apply (getInstanceID_grouping sample_ec2 _ "db-bastion" sample_instances
           {| Reservations :=
                [ {| Instances := enumeration (Reservations sample_instances) |} ] |} St0);
    reflexivity.
Defined.

Lemma getInstanceID_instances_stops (pre post : list Instance) (i : Instance)
    (id : string) (s : St) :
  Forall passed_over pre ->
  is_running i = true ->
  InstanceId i = Some id ->
  getInstanceID_instances (pre ++ i :: post) s = (s, Returned (Some id)).
Proof.
  intros Hpre Hrun Hid.
  induction Hpre as [|j pre [[st Hst] Hj] _ IH].
  - cbn [app getInstanceID_instances]. unfold is_running in Hrun.
    destruct (State i) as [st|]; [|discriminate].
    unfold mbind, M_bind; cbn [deref]. unfold InstanceStateNameRunning.
    rewrite Hrun, Hid. reflexivity.
  - cbn [app getInstanceID_instances]. unfold is_running in Hj. rewrite Hst in *.
    unfold mbind at 1, M_bind at 1; cbn [deref]. unfold InstanceStateNameRunning.
    rewrite Hj. exact IH.
Qed.

Lemma getInstanceID_instances_nil_state (pre post : list Instance) (i : Instance)
    (s : St) :
  Forall passed_over pre ->
  State i = None \/ (is_running i = true /\ InstanceId i = None) ->
  getInstanceID_instances (pre ++ i :: post) s = (s, Panicked).
Proof.
  intros Hpre Hi.
  induction Hpre as [|j pre [[st Hst] Hj] _ IH].
  - cbn [app getInstanceID_instances].
    destruct Hi as [Hn|[Hrun Hid]].
    + rewrite Hn. reflexivity.
    + unfold is_running in Hrun. destruct (State i) as [st|]; [|discriminate].
      unfold mbind, M_bind; cbn [deref]. unfold InstanceStateNameRunning.
      rewrite Hrun, Hid. reflexivity.
  - cbn [app getInstanceID_instances]. unfold is_running in Hj. rewrite Hst in *.
    unfold mbind at 1, M_bind at 1; cbn [deref]. unfold InstanceStateNameRunning.
    rewrite Hj. exact IH.
Qed.

(** X2. The scan ends at the first running instance: when the instances
    before it are described and do not run, its identifier is the result,
    and nothing behind it is looked at, not even an instance without a
    state. *)
Theorem getInstanceID_stops_at_first_running (client : ec2_Client) (instanceName : string)
    (output : DescribeInstancesOutput) (pre post : list Instance) (i : Instance)
    (id : string) (s : St) :
  DescribeInstances client (name_filter instanceName) = inr output ->
  enumeration (Reservations output) = (pre ++ i :: post)%list ->
  Forall passed_over pre ->
  is_running i = true ->
  InstanceId i = Some id ->
  getInstanceID client instanceName s =
    (push (EvDescribeInstances (name_filter instanceName)) s, Returned (id, None)).
Proof.
  intros Hq He Hpre Hrun Hid.
  unfold getInstanceID. fold (name_filter instanceName).
  rewrite emit_bind, Hq. unfold mbind, M_bind.
  rewrite getInstanceID_reservations_flat, He.
  rewrite (getInstanceID_instances_stops pre post i id _ Hpre Hrun Hid).
  reflexivity.
Qed.

Lemma getInstanceID_stops_at_first_running_witness :
  getInstanceID {| DescribeInstances := fun _ => inr {| Reservations := sample_ragged |} |}
    "db-bastion" St0 =
  (push (EvDescribeInstances (name_filter "db-bastion")) St0, Returned ("i-0bbb", None)).
Proof.
  apply (getInstanceID_stops_at_first_running _ "db-bastion"
           {| Reservations := sample_ragged |}
           [ {| InstanceId := Some "i-0aaa"; State := Some {| State_Name := "stopped" |} |} ]
           [ {| InstanceId := None; State := None |} ]
           {| InstanceId := Some "i-0bbb"; State := Some {| State_Name := "running" |} |}
           "i-0bbb" St0); try reflexivity.
  repeat constructor; cbn; eauto.
Defined.

(** X3. An instance without a state, or a running one without an
    identifier, that is met before any running instance with an identifier
    ends getInstanceID in a nil dereference: after its one query it returns
    neither an identifier nor an error. *)
Theorem getInstanceID_nil_dereference (client : ec2_Client) (instanceName : string)
    (output : DescribeInstancesOutput) (pre post : list Instance) (i : Instance)
    (s : St) :
  DescribeInstances client (name_filter instanceName) = inr output ->
  enumeration (Reservations output) = (pre ++ i :: post)%list ->
  Forall passed_over pre ->
  State i = None \/ (is_running i = true /\ InstanceId i = None) ->
  getInstanceID client instanceName s =
    (push (EvDescribeInstances (name_filter instanceName)) s, Panicked).
Proof.
  intros Hq He Hpre Hi.
  unfold getInstanceID. fold (name_filter instanceName).
  rewrite emit_bind, Hq. unfold mbind, M_bind.
  rewrite getInstanceID_reservations_flat, He.
  rewrite (getInstanceID_instances_nil_state pre post i _ Hpre Hi).
  reflexivity.
Qed.

Lemma getInstanceID_nil_dereference_witness :
  getInstanceID
    {| DescribeInstances := fun _ => inr {| Reservations := sample_ragged_first |} |}
    "db-bastion" St0 =
  (push (EvDescribeInstances (name_filter "db-bastion")) St0, Panicked).
Proof.
  apply (getInstanceID_nil_dereference _ "db-bastion"
           {| Reservations := sample_ragged_first |}
           []
           [ {| InstanceId := Some "i-0bbb"; State := Some {| State_Name := "running" |} |} ]
           {| InstanceId := None; State := None |} St0); try reflexivity.
  - constructor.
  - left; reflexivity.
Defined.

(** ** The settings *)

Lemma resolve_config_file (w : World) (flags1 flags2 : Config) (configFile : string) :
  configFile <> EmptyString ->
  resolve w flags1 configFile = resolve w flags2 configFile.
Proof.
  intros Hne. unfold resolve.
  destruct (String.eqb configFile EmptyString) eqn:E; [|reflexivity].
  now apply String.eqb_eq in E.
Qed.

(** X4. When a settings file is named, the flags count for nothing:
    each of the three programs runs the same whatever the six flags (and the
    agent flag) say, since the record read from the file replaces the one
    filled by the flags as a whole. *)
Theorem config_file_replaces_flags (w : World) (flags1 flags2 : Config)
    (configFile : string) :
  configFile <> EmptyString ->
  go_run (MainGo.main w flags1 configFile) = go_run (MainGo.main w flags2 configFile) /\
  go_run (Part000.main w flags1 configFile) = go_run (Part000.main w flags2 configFile) /\
  go_run (Part000Old.main w flags1 configFile) =
    go_run (Part000Old.main w flags2 configFile).
Proof.
  intros Hne. unfold MainGo.main, Part000.main, Part000Old.main.
  rewrite (resolve_config_file w flags1 flags2 configFile Hne).
  repeat split.
Qed.

Lemma config_file_replaces_flags_witness :
  go_run (Part000.main sample_World_with_file sample_no_region "settings.ini") =
  go_run (Part000.main sample_World_with_file sample_builtin "settings.ini").
Proof.
  refine (proj1 (proj2 (config_file_replaces_flags sample_World_with_file
                          sample_no_region sample_builtin "settings.ini" _))).
  discriminate.
Defined.

(** X5. A settings file that cannot be loaded, or whose settings section
    cannot be mapped to the record, ends each program at once: the file is
    read, the error is logged behind the words Failed to load configuration
    file, and the process exits with status 1.  The flags are no fallback,
    and nothing outside the process is called. *)
Theorem config_file_failure_is_fatal (w : World) (flags : Config) (configFile : string)
    (err : error) :
  configFile <> EmptyString ->
  ini_Load w configFile = inl err \/
  (exists iniCfg, ini_Load w configFile = inr iniCfg /\
     Section_MapTo w (default ∅ (iniCfg !! "settings")) zero_Config = inl err) ->
  let failed := (push (EvExit 1)
                   (push (EvLog ("Failed to load configuration file: " +:+ err))
                      (push (EvIniLoad configFile) St0)), Exited 1) in
  go_run (MainGo.main w flags configFile) = failed /\
  go_run (Part000.main w flags configFile) = failed /\
  go_run (Part000Old.main w flags configFile) = failed.
Proof.
  intros Hne Hfail failed.
  assert (Hres : resolve w flags configFile St0 = (fst failed, Exited 1)).
  { unfold resolve, loadConfigFromFile.
    destruct (String.eqb configFile EmptyString) eqn:E;
      [now apply String.eqb_eq in E|].
    cbn [negb]. unfold mbind, M_bind, emit.
    destruct Hfail as [->|(iniCfg & -> & ->)]; reflexivity. }
  unfold go_run, MainGo.main, Part000.main, Part000Old.main, mbind, M_bind.
  rewrite Hres. repeat split.
Qed.

Lemma config_file_failure_is_fatal_witness :
  events (go_run (MainGo.main sample_World sample_Config "settings.ini")) =
  [ EvIniLoad "settings.ini";
    EvLog "Failed to load configuration file: open: no such file or directory";
    EvExit 1 ].
Proof.
  refine (f_equal (fun r => trace (fst r))
            (proj1 (config_file_failure_is_fatal sample_World sample_Config
                      "settings.ini" "open: no such file or directory" _ _))).
  - discriminate.
  - left; reflexivity.
Defined.

(** ** The order of the steps *)

Ltac find_prefix :=
  first [ exists 0; reflexivity | exists 1; reflexivity | exists 2; reflexivity
        | exists 3; reflexivity | exists 4; reflexivity | exists 5; reflexivity
        | exists 6; reflexivity | exists 7; reflexivity | exists 8; reflexivity
        | exists 9; reflexivity | exists 10; reflexivity | exists 11; reflexivity ].

(** X6. In every run of main.go and of the program with both
    strategies the steps come in one order, each at most once and none
    before all the earlier ones: the AWS configuration, the EC2 client, the
    instance query, the SSM client, the session request, the start of the
    keeper, the start of the agent, the registration for signals, the
    receipt of one, the closing of the stop channel, the kill.  A run stops
    somewhere along this line. *)
Theorem steps_in_order (w : World) (flags : Config) (configFile : string) :
  (exists k, omap stage (events (go_run (MainGo.main w flags configFile))) = seq 0 k) /\
  (exists k, omap stage (events (go_run (Part000.main w flags configFile))) = seq 0 k).
Proof.
  split; paths; find_prefix.
Qed.

(** X7. What the calls of a run carry is taken from the settings the run
    resolved: the AWS configuration is loaded for their profile and region,
    the instance query filters on their instance name, the session request
    names their host and ports, and the keeper is started on their local
    port, the one that the session request forwards. *)
Theorem calls_carry_settings (w : World) (flags : Config) (configFile : string)
    (s : St) (cfg : Config) :
  resolve w flags configFile St0 = (s, Returned cfg) ->
  Forall (from_settings cfg) (events (go_run (MainGo.main w flags configFile))) /\
  Forall (from_settings cfg) (events (go_run (Part000.main w flags configFile))).
Proof.
  intros Hres. split; revert Hres; paths; intros [= <- <-] || intros [=];
    repeat (constructor; [cbn; eauto|]); constructor.
Qed.

Lemma calls_carry_settings_witness :
  Forall (from_settings sample_Config)
    (events (go_run (Part000.main sample_World sample_Config EmptyString))).
Proof.
  exact (proj2 (calls_carry_settings sample_World sample_Config EmptyString St0
                  sample_Config eq_refl)).
Defined.

(** ** The fatal paths of main *)

#[local] Arguments Part000Old.getInstanceID : simpl never.

Ltac unfold_mains :=
  unfold go_run, events, outcome, Part000Old.main,
    Part000Old.startSessionManagerPlugin;
  unfold_core.

(** Follows the one path that the hypotheses fix. *)
Ltac follow :=
  repeat (cbn;
          match goal with
          | H : forall s0, getInstanceID ?c ?n s0 = _ |- context [getInstanceID ?c ?n _] =>
              rewrite H
          | H : forall s0, Part000Old.getInstanceID ?c ?n s0 = _
            |- context [Part000Old.getInstanceID ?c ?n _] => rewrite H
          | |- context [startPortForwarding _ _ _ _ _ _] =>
              rewrite !startPortForwarding_run
          | H : ?l = _ |- context [?l] => rewrite H
          end);
  cbn.

Ltac ends := unfold ends_with; unfold_mains; follow;
             rewrite <- ?app_assoc; split; reflexivity.

Lemma getInstanceID_old_located (client : ec2_Client) (instanceName : string) (s : St)
    (output : DescribeInstancesOutput) (i : Instance) (id : string) :
  DescribeInstances client (name_filter instanceName) = inr output ->
  Forall described (enumeration (Reservations output)) ->
  first_running (Reservations output) = Some i ->
  InstanceId i = Some id ->
  Part000Old.getInstanceID client instanceName s =
    (push (EvDescribeInstances (name_filter instanceName)) s, Returned (id, None)).
Proof.
  intros Hq Hd Hf Hi.
  unfold Part000Old.getInstanceID. fold (name_filter instanceName).
  rewrite emit_bind, Hq.
  rewrite (bind_Returned _ _ _ _ _ (getInstanceID_reservations_find _ _ Hd)).
  rewrite Hf. cbn. rewrite Hi. reflexivity.
Qed.

Lemma locates_run (w : World) (awsCfg : aws_Config) (cfg : Config) (id : string) :
  locates w awsCfg cfg id ->
  (forall s0, getInstanceID {| DescribeInstances := ec2_api w awsCfg |}
                (InstanceName cfg) s0 =
              (push (EvDescribeInstances (name_filter (InstanceName cfg))) s0,
               Returned (id, None))) /\
  (forall s0, Part000Old.getInstanceID {| DescribeInstances := ec2_api w awsCfg |}
                (InstanceName cfg) s0 =
              (push (EvDescribeInstances (name_filter (InstanceName cfg))) s0,
               Returned (id, None))).
Proof.
  intros (output & i & Hq & Hd & Hf & Hi). split; intros s0.
  - exact (getInstanceID_located {| DescribeInstances := ec2_api w awsCfg |}
             _ _ _ _ _ Hq Hd Hf Hi).
  - exact (getInstanceID_old_located {| DescribeInstances := ec2_api w awsCfg |}
             _ _ _ _ _ Hq Hd Hf Hi).
Qed.

(** X8. When the AWS configuration cannot be loaded for the profile and
    the region of complete settings, each of the three programs logs the
    error behind the words Failed to create AWS session and exits with
    status 1; it makes no client and no further call. *)
Theorem aws_session_failure_is_fatal (w : World) (flags : Config) (configFile : string)
    (s : St) (cfg : Config) (err : error) :
  resolve w flags configFile St0 = (s, Returned cfg) ->
  missing cfg = false ->
  config_LoadDefaultConfig w (Profile cfg) (Region cfg) = inl err ->
  let failed := [ EvLoadDefaultConfig (Profile cfg) (Region cfg);
                  EvLog ("Failed to create AWS session: " +:+ err);
                  EvExit 1 ] in
  ends_with (go_run (MainGo.main w flags configFile)) s failed (Exited 1) /\
  ends_with (go_run (Part000.main w flags configFile)) s failed (Exited 1) /\
  ends_with (go_run (Part000Old.main w flags configFile)) s failed (Exited 1).
Proof.
  intros Hres Hm Hcfg failed. split; [|split]; ends.
Qed.

Lemma aws_session_failure_is_fatal_witness :
  ends_with (go_run (MainGo.main sample_World_no_credentials sample_Config EmptyString))
    St0
    [ EvLoadDefaultConfig "default" "us-east-1";
      EvLog "Failed to create AWS session: failed to get shared config profile, default";
      EvExit 1 ]
    (Exited 1).
Proof.
  exact (proj1 (aws_session_failure_is_fatal sample_World_no_credentials sample_Config
                  EmptyString St0 sample_Config
                  "failed to get shared config profile, default"
                  eq_refl eq_refl eq_refl)).
Defined.

(** X9. When the instance query fails, each of the three programs logs
    the control plane's error, as it is, behind the words Failed to get
    instance ID and exits with status 1: no SSM client is made and no
    session is requested. *)
Theorem lookup_error_is_fatal (w : World) (flags : Config) (configFile : string)
    (s : St) (cfg : Config) (awsCfg : aws_Config) (err : error) :
  resolve w flags configFile St0 = (s, Returned cfg) ->
  missing cfg = false ->
  config_LoadDefaultConfig w (Profile cfg) (Region cfg) = inr awsCfg ->
  ec2_api w awsCfg (name_filter (InstanceName cfg)) = inl err ->
  let failed := (lookup_calls cfg awsCfg ++
                 [ EvLog ("Failed to get instance ID: " +:+ err); EvExit 1 ])%list in
  ends_with (go_run (MainGo.main w flags configFile)) s failed (Exited 1) /\
  ends_with (go_run (Part000.main w flags configFile)) s failed (Exited 1) /\
  ends_with (go_run (Part000Old.main w flags configFile)) s failed (Exited 1).
Proof.
  intros Hres Hm Hcfg Hq failed.
  assert (H1 : forall s0, getInstanceID {| DescribeInstances := ec2_api w awsCfg |}
                 (InstanceName cfg) s0 =
               (push (EvDescribeInstances (name_filter (InstanceName cfg))) s0,
                Returned (EmptyString, Some err))).
  { intros s0. unfold getInstanceID. fold (name_filter (InstanceName cfg)).
    rewrite emit_bind. cbn [DescribeInstances]. now rewrite Hq. }
  assert (H2 : forall s0, Part000Old.getInstanceID
                 {| DescribeInstances := ec2_api w awsCfg |} (InstanceName cfg) s0 =
               (push (EvDescribeInstances (name_filter (InstanceName cfg))) s0,
                Returned (EmptyString, Some err))).
  { intros s0. unfold Part000Old.getInstanceID. fold (name_filter (InstanceName cfg)).
    rewrite emit_bind. cbn [DescribeInstances]. now rewrite Hq. }
  clear Hq. split; [|split]; ends.
Qed.

Lemma lookup_error_is_fatal_witness :
  ends_with
    (go_run (Part000.main (sample_World_ec2 (inl "UnauthorizedOperation"))
               sample_Config EmptyString))
    St0
    (lookup_calls sample_Config sample_aws_Config ++
     [ EvLog "Failed to get instance ID: UnauthorizedOperation"; EvExit 1 ])
    (Exited 1).
Proof.
  exact (proj1 (proj2 (lookup_error_is_fatal (sample_World_ec2 (inl "UnauthorizedOperation"))
                  sample_Config EmptyString St0 sample_Config sample_aws_Config
                  "UnauthorizedOperation" eq_refl eq_refl eq_refl eq_refl))).
Defined.

Lemma scan_passed_over (instances : list Instance) (s : St) :
  Forall passed_over instances ->
  getInstanceID_instances instances s = (s, Returned None).
Proof.
  induction 1 as [|j l [[st Hst] Hj] _ IH]; [reflexivity|].
  cbn [getInstanceID_instances]. unfold is_running in Hj. rewrite Hst in *.
  unfold mbind at 1, M_bind at 1; cbn [deref]. unfold InstanceStateNameRunning.
  rewrite Hj. exact IH.
Qed.

(** X10. When the query succeeds and no instance of the answer runs (the
    answer may be empty), main.go and the program with both strategies log
    Failed to get instance ID: No running aws instances found. and exit with
    status 1, and the first program does the same with the words no running
    instances found; none of them goes on to the session. *)
Theorem no_running_instance_is_fatal (w : World) (flags : Config) (configFile : string)
    (s : St) (cfg : Config) (awsCfg : aws_Config) (output : DescribeInstancesOutput) :
  resolve w flags configFile St0 = (s, Returned cfg) ->
  missing cfg = false ->
  config_LoadDefaultConfig w (Profile cfg) (Region cfg) = inr awsCfg ->
  ec2_api w awsCfg (name_filter (InstanceName cfg)) = inr output ->
  Forall passed_over (enumeration (Reservations output)) ->
  let failed text := (lookup_calls cfg awsCfg ++
                      [ EvLog ("Failed to get instance ID: " +:+ text); EvExit 1 ])%list in
  ends_with (go_run (MainGo.main w flags configFile)) s
    (failed "No running aws instances found.") (Exited 1) /\
  ends_with (go_run (Part000.main w flags configFile)) s
    (failed "No running aws instances found.") (Exited 1) /\
  ends_with (go_run (Part000Old.main w flags configFile)) s
    (failed "no running instances found") (Exited 1).
Proof.
  intros Hres Hm Hcfg Hq Hnone failed.
  assert (H1 : forall s0, getInstanceID {| DescribeInstances := ec2_api w awsCfg |}
                 (InstanceName cfg) s0 =
               (push (EvDescribeInstances (name_filter (InstanceName cfg))) s0,
                Returned (EmptyString, Some "No running aws instances found."))).
  { intros s0. unfold getInstanceID. fold (name_filter (InstanceName cfg)).
    rewrite emit_bind. cbn [DescribeInstances]. rewrite Hq.
    unfold mbind, M_bind.
    now rewrite getInstanceID_reservations_flat, (scan_passed_over _ _ Hnone). }
  assert (H2 : forall s0, Part000Old.getInstanceID
                 {| DescribeInstances := ec2_api w awsCfg |} (InstanceName cfg) s0 =
               (push (EvDescribeInstances (name_filter (InstanceName cfg))) s0,
                Returned (EmptyString, Some "no running instances found"))).
  { intros s0. unfold Part000Old.getInstanceID. fold (name_filter (InstanceName cfg)).
    rewrite emit_bind. cbn [DescribeInstances]. rewrite Hq.
    unfold mbind, M_bind.
    now rewrite getInstanceID_reservations_flat, (scan_passed_over _ _ Hnone). }
  clear Hq. split; [|split]; ends.
Qed.

Lemma no_running_instance_is_fatal_witness :
  ends_with
    (go_run (MainGo.main (sample_World_ec2 (inr sample_stopped)) sample_Config EmptyString))
    St0
    (lookup_calls sample_Config sample_aws_Config ++
     [ EvLog "Failed to get instance ID: No running aws instances found."; EvExit 1 ])
    (Exited 1).
Proof.
  refine (proj1 (no_running_instance_is_fatal (sample_World_ec2 (inr sample_stopped))
                  sample_Config EmptyString St0 sample_Config sample_aws_Config
                  sample_stopped eq_refl eq_refl eq_refl eq_refl _)).
  repeat constructor; cbn; eauto.
Defined.

(** X11. When the instance is located and the session request is
    refused, each of the three programs logs the service's error behind the
    words Failed to start port forwarding and exits with status 1: nothing
    is printed, no keeper is started and no agent. *)
Theorem negotiation_failure_is_fatal (w : World) (flags : Config) (configFile : string)
    (s : St) (cfg : Config) (awsCfg : aws_Config) (id : string) (err : error) :
  resolve w flags configFile St0 = (s, Returned cfg) ->
  missing cfg = false ->
  config_LoadDefaultConfig w (Profile cfg) (Region cfg) = inr awsCfg ->
  locates w awsCfg cfg id ->
  ssm_api w awsCfg (session_request id (RemoteHost cfg) (LocalPort cfg) (RemotePort cfg))
    = inl err ->
  let failed := (session_calls cfg awsCfg id ++
                 [ EvLog ("Failed to start port forwarding: " +:+ err); EvExit 1 ])%list in
  ends_with (go_run (MainGo.main w flags configFile)) s failed (Exited 1) /\
  ends_with (go_run (Part000.main w flags configFile)) s failed (Exited 1) /\
  ends_with (go_run (Part000Old.main w flags configFile)) s failed (Exited 1).
Proof.
  intros Hres Hm Hcfg [H1 H2]%locates_run Hssm failed.
  split; [|split]; ends.
Qed.

Lemma negotiation_failure_is_fatal_witness :
  ends_with
    (go_run (Part000Old.main sample_World_not_managed sample_Config EmptyString))
    St0
    (session_calls sample_Config sample_aws_Config "i-0bbb" ++
     [ EvLog "Failed to start port forwarding: TargetNotConnected: i-0bbb is not connected.";
       EvExit 1 ])
    (Exited 1).
Proof.
  refine (proj2 (proj2 (negotiation_failure_is_fatal sample_World_not_managed
                  sample_Config EmptyString St0 sample_Config sample_aws_Config
                  "i-0bbb" "TargetNotConnected: i-0bbb is not connected."
                  eq_refl eq_refl eq_refl _ eq_refl))).
  exists sample_instances,
    {| InstanceId := Some "i-0bbb"; State := Some {| State_Name := "running" |} |}.
  repeat split; repeat constructor; cbn; eauto.
Defined.

Lemma negotiates_run (w : World) (cfg : Config) (awsCfg : aws_Config) (id : string)
    (response : StartSessionOutput) :
  negotiates w cfg awsCfg id response ->
  config_LoadDefaultConfig w (Profile cfg) (Region cfg) = inr awsCfg /\
  (forall s0, getInstanceID {| DescribeInstances := ec2_api w awsCfg |}
                (InstanceName cfg) s0 =
              (push (EvDescribeInstances (name_filter (InstanceName cfg))) s0,
               Returned (id, None))) /\
  (forall s0, Part000Old.getInstanceID {| DescribeInstances := ec2_api w awsCfg |}
                (InstanceName cfg) s0 =
              (push (EvDescribeInstances (name_filter (InstanceName cfg))) s0,
               Returned (id, None))) /\
  ssm_api w awsCfg (session_request id (RemoteHost cfg) (LocalPort cfg) (RemotePort cfg))
    = inr response.
Proof.
  intros (Hcfg & [H1 H2]%locates_run & Hssm). auto.
Qed.

Ltac sample_negotiation :=
  unfold negotiates, locates;
  split; [reflexivity|]; split; [|reflexivity];
  exists sample_instances,
    {| InstanceId := Some "i-0bbb"; State := Some {| State_Name := "running" |} |};
  repeat split; repeat constructor; cbn; eauto.

(** X12. When the session is negotiated and its answer cannot be
    serialized, no program starts the agent and each exits with status 1.
    main.go and the program with both strategies, whichever strategy is
    chosen, have by then started the keeper, and log the error behind the
    words Failed to marshal response; the first program logs it behind the
    words Failed to start Session Manager Plugin. *)
Theorem serialization_failure_is_fatal (w : World) (flags : Config) (configFile : string)
    (s : St) (cfg : Config) (awsCfg : aws_Config) (id : string)
    (response : StartSessionOutput) (err : error) :
  resolve w flags configFile St0 = (s, Returned cfg) ->
  missing cfg = false ->
  negotiates w cfg awsCfg id response ->
  json_Marshal w (Some response) = inl err ->
  ends_with (go_run (MainGo.main w flags configFile)) s
    (session_calls cfg awsCfg id ++
     [ EvStdout (("Port forwarding session started." +:+ LF +:+
                  "Press Ctrl-C to terminate.") +:+ LF);
       EvGoKeepAlive (LocalPort cfg) (chans s);
       EvLog ("Failed to marshal response: " +:+ err);
       EvExit 1 ])
    (Exited 1) /\
  ends_with (go_run (Part000.main w flags configFile)) s
    (session_calls cfg awsCfg id ++
     [ EvStdout ("Port forwarding session started" +:+ LF);
       EvGoKeepAlive (LocalPort cfg) (chans s);
       EvLog ("Failed to marshal response: " +:+ err);
       EvExit 1 ])
    (Exited 1) /\
  ends_with (go_run (Part000Old.main w flags configFile)) s
    (session_calls cfg awsCfg id ++
     [ EvStdout ("Port forwarding session started" +:+ LF);
       EvLog ("Failed to start Session Manager Plugin: " +:+ err);
       EvExit 1 ])
    (Exited 1).
Proof.
  intros Hres Hm (Hcfg & H1 & H2 & Hssm)%negotiates_run Hjson.
  split; [|split]; [ends| |ends].
  destruct (UseBuiltin cfg) eqn:Hb; ends.
Qed.

Lemma serialization_failure_is_fatal_witness :
  ends_with (go_run (Part000Old.main sample_World_no_json sample_Config EmptyString)) St0
    (session_calls sample_Config sample_aws_Config "i-0bbb" ++
     [ EvStdout ("Port forwarding session started" +:+ LF);
       EvLog "Failed to start Session Manager Plugin: json: unsupported value";
       EvExit 1 ])
    (Exited 1).
Proof.
  refine (proj2 (proj2 (serialization_failure_is_fatal sample_World_no_json sample_Config
                  EmptyString St0 sample_Config sample_aws_Config "i-0bbb" sample_session
                  "json: unsupported value" eq_refl eq_refl _ eq_refl))).
  sample_negotiation.
Defined.

(** X13. When the external agent cannot be started, the program with
    both strategies (the external one chosen) and the first program log the
    error of the start behind the words Failed to start Session Manager
    Plugin and exit with status 1, after the one attempt; the process handle
    stays nil. *)
Theorem agent_start_failure_is_fatal (w : World) (flags : Config) (configFile : string)
    (s : St) (cfg : Config) (awsCfg : aws_Config) (id : string)
    (response : StartSessionOutput) (descriptor : string) (err : error) :
  resolve w flags configFile St0 = (s, Returned cfg) ->
  missing cfg = false ->
  UseBuiltin cfg = false ->
  negotiates w cfg awsCfg id response ->
  json_Marshal w (Some response) = inr descriptor ->
  Cmd_Start w (agent_command descriptor (Region cfg) (Profile cfg) id) = inl err ->
  ends_with (go_run (Part000.main w flags configFile)) s
    (session_calls cfg awsCfg id ++
     [ EvStdout ("Port forwarding session started" +:+ LF);
       EvGoKeepAlive (LocalPort cfg) (chans s);
       EvCmdStart (agent_command descriptor (Region cfg) (Profile cfg) id);
       EvLog ("Failed to start Session Manager Plugin: " +:+ err);
       EvExit 1 ])
    (Exited 1) /\
  sessionManagerProcess (fst (go_run (Part000.main w flags configFile))) = None /\
  ends_with (go_run (Part000Old.main w flags configFile)) s
    (session_calls cfg awsCfg id ++
     [ EvStdout ("Port forwarding session started" +:+ LF);
       EvCmdStart (agent_command descriptor (Region cfg) (Profile cfg) id);
       EvLog ("Failed to start Session Manager Plugin: " +:+ err);
       EvExit 1 ])
    (Exited 1) /\
  sessionManagerProcess (fst (go_run (Part000Old.main w flags configFile))) = None.
Proof.
  intros Hres Hm Hb (Hcfg & H1 & H2 & Hssm)%negotiates_run Hjson Hstart.
  assert (Hs0 : sessionManagerProcess s = None).
  { apply resolve_run in Hres as [(-> & _)|(-> & _)]; reflexivity. }
  change (agent_command descriptor (Region cfg) (Profile cfg) id)
    with {| Cmd_Path := "session-manager-plugin";
            Cmd_Args := [ "session-manager-plugin"; descriptor; Region cfg;
                          "StartSession"; Profile cfg; Sprintf_Target id;
                          "https://ssm." +:+ Region cfg +:+ ".amazonaws.com" ];
            Cmd_SysProcAttr := Some {| Setpgid := true |} |} in *.
  split; [ends|]. split; [unfold_mains; follow; reflexivity|].
  split; [ends|]. unfold_mains; follow; reflexivity.
Qed.

Lemma agent_start_failure_is_fatal_witness :
  ends_with (go_run (Part000.main sample_World_no_agent sample_Config EmptyString)) St0
    (session_calls sample_Config sample_aws_Config "i-0bbb" ++
     [ EvStdout ("Port forwarding session started" +:+ LF);
       EvGoKeepAlive 3306 0;
       EvCmdStart (agent_command (sample_json sample_session) "us-east-1" "default"
                     "i-0bbb");
       EvLog ("Failed to start Session Manager Plugin: " +:+
              "exec: session-manager-plugin: executable file not found in $PATH");
       EvExit 1 ])
    (Exited 1).
Proof.
  refine (proj1 (agent_start_failure_is_fatal sample_World_no_agent sample_Config
                  EmptyString St0 sample_Config sample_aws_Config "i-0bbb" sample_session
                  (sample_json sample_session)
                  "exec: session-manager-plugin: executable file not found in $PATH"
                  eq_refl eq_refl eq_refl _ eq_refl eq_refl)).
  sample_negotiation.
Defined.

(** ** The paths on which the agent starts *)

(** X14. When the external agent starts, the program with both strategies
    (the external one chosen) and the first program print the identifier of
    the started process and register for the interrupt and the termination
    signal.  Without a signal they wait for ever; with one, the process they
    kill is the process they started: they kill it once, print that it is
    terminated and exit with status 0 (the newer program closes the stop
    channel of the keeper first). *)
Theorem external_agent_is_killed (w : World) (flags : Config) (configFile : string)
    (s : St) (cfg : Config) (awsCfg : aws_Config) (id : string)
    (response : StartSessionOutput) (descriptor : string) (process : Process) :
  resolve w flags configFile St0 = (s, Returned cfg) ->
  missing cfg = false ->
  UseBuiltin cfg = false ->
  negotiates w cfg awsCfg id response ->
  json_Marshal w (Some response) = inr descriptor ->
  Cmd_Start w (agent_command descriptor (Region cfg) (Profile cfg) id) = inr process ->
  let started :=
    [ EvCmdStart (agent_command descriptor (Region cfg) (Profile cfg) id);
      EvStdout ("Session Manager Plugin process started with PID: " +:+
                Sprintf_d (Pid process) +:+ LF) ] in
  let killed :=
    [ EvKill process;
      EvStdout ("Session Manager Plugin process terminated." +:+ LF);
      EvExit 0 ] in
  ends_with (go_run (Part000.main w flags configFile)) s
    (session_calls cfg awsCfg id ++
     [ EvStdout ("Port forwarding session started" +:+ LF);
       EvGoKeepAlive (LocalPort cfg) (chans s) ] ++
     started ++
     EvSignalNotify (S (chans s)) [Interrupt; SIGTERM] ::
     match signal_delivered w with
     | Some _ => EvRecv (S (chans s)) :: EvClose (chans s) :: killed
     | None => []
     end)
    match signal_delivered w with Some _ => Exited 0 | None => Blocked end /\
  ends_with (go_run (Part000Old.main w flags configFile)) s
    (session_calls cfg awsCfg id ++
     [ EvStdout ("Port forwarding session started" +:+ LF) ] ++
     started ++
     EvSignalNotify (chans s) [Interrupt; SIGTERM] ::
     match signal_delivered w with
     | Some _ => EvRecv (chans s) :: killed
     | None => []
     end)
    match signal_delivered w with Some _ => Exited 0 | None => Blocked end.
Proof.
  intros Hres Hm Hb (Hcfg & H1 & H2 & Hssm)%negotiates_run Hjson Hstart started killed.
  change (agent_command descriptor (Region cfg) (Profile cfg) id)
    with {| Cmd_Path := "session-manager-plugin";
            Cmd_Args := [ "session-manager-plugin"; descriptor; Region cfg;
                          "StartSession"; Profile cfg; Sprintf_Target id;
                          "https://ssm." +:+ Region cfg +:+ ".amazonaws.com" ];
            Cmd_SysProcAttr := Some {| Setpgid := true |} |} in *.
  destruct (signal_delivered w) eqn:Hsig; split; ends.
Qed.

Lemma external_agent_is_killed_witness :
  ends_with (go_run (Part000Old.main sample_World sample_Config EmptyString)) St0
    (session_calls sample_Config sample_aws_Config "i-0bbb" ++
     [ EvStdout ("Port forwarding session started" +:+ LF);
       EvCmdStart (agent_command (sample_json sample_session) "us-east-1" "default"
                     "i-0bbb");
       EvStdout ("Session Manager Plugin process started with PID: 4242" +:+ LF);
       EvSignalNotify 0 [Interrupt; SIGTERM];
       EvRecv 0;
       EvKill {| Pid := 4242 |};
       EvStdout ("Session Manager Plugin process terminated." +:+ LF);
       EvExit 0 ])
    (Exited 0).
Proof.
  refine (proj2 (external_agent_is_killed sample_World sample_Config EmptyString St0
                  sample_Config sample_aws_Config "i-0bbb" sample_session
                  (sample_json sample_session) {| Pid := 4242 |}
                  eq_refl eq_refl eq_refl _ eq_refl eq_refl)).
  sample_negotiation.
Defined.

(** X15. When the in-process agent comes back, with or without a
    diagnostic, the run does not end: main.go and the program with both
    strategies (the in-process one chosen) print the diagnostic, if there is
    one, behind the words Session Manager Output, and go on to register for
    signals and to wait.  Only a signal ends them, with status 0, after the
    stop channel is closed; no process is killed. *)
Theorem agent_return_is_not_fatal (w : World) (flags : Config) (configFile : string)
    (s : St) (cfg : Config) (awsCfg : aws_Config) (id : string)
    (response : StartSessionOutput) (descriptor : string) (output : string) :
  resolve w flags configFile St0 = (s, Returned cfg) ->
  missing cfg = false ->
  negotiates w cfg awsCfg id response ->
  json_Marshal w (Some response) = inr descriptor ->
  session_ValidateInputAndStartSession w
    ("aws-go-forward" :: agent_arguments descriptor (Region cfg) (Profile cfg) id)
    = AgentReturns output ->
  let after :=
    (EvValidateInputAndStartSession
       ("aws-go-forward" :: agent_arguments descriptor (Region cfg) (Profile cfg) id) ::
     (if String.eqb output EmptyString then []
      else [ EvStdout ("Session Manager Output: " +:+ output +:+ LF) ]) ++
     EvSignalNotify (S (chans s)) [Interrupt; SIGTERM] ::
     match signal_delivered w with
     | Some _ => [ EvRecv (S (chans s)); EvClose (chans s); EvExit 0 ]
     | None => []
     end)%list in
  ends_with (go_run (MainGo.main w flags configFile)) s
    (session_calls cfg awsCfg id ++
     [ EvStdout (("Port forwarding session started." +:+ LF +:+
                  "Press Ctrl-C to terminate.") +:+ LF);
       EvGoKeepAlive (LocalPort cfg) (chans s) ] ++ after)
    match signal_delivered w with Some _ => Exited 0 | None => Blocked end /\
  (UseBuiltin cfg = true ->
   ends_with (go_run (Part000.main w flags configFile)) s
     (session_calls cfg awsCfg id ++
      [ EvStdout ("Port forwarding session started" +:+ LF);
        EvGoKeepAlive (LocalPort cfg) (chans s) ] ++ after)
     match signal_delivered w with Some _ => Exited 0 | None => Blocked end).
Proof.
  intros Hres Hm (Hcfg & H1 & H2 & Hssm)%negotiates_run Hjson Hrun after.
  assert (Hs0 : sessionManagerProcess s = None).
  { apply resolve_run in Hres as [(-> & _)|(-> & _)]; reflexivity. }
  change ("aws-go-forward" :: agent_arguments descriptor (Region cfg) (Profile cfg) id)
    with [ "aws-go-forward"; descriptor; Region cfg; "StartSession"; Profile cfg;
           Sprintf_Target id; "https://ssm." +:+ Region cfg +:+ ".amazonaws.com" ] in *.
  destruct (signal_delivered w) eqn:Hsig;
    destruct (String.eqb output EmptyString) eqn:Hout;
    (split; [|intros Hb]); ends.
Qed.

Lemma agent_return_is_not_fatal_witness :
  ends_with (go_run (Part000.main sample_World_returning sample_builtin EmptyString)) St0
    (session_calls sample_builtin sample_aws_Config "i-0bbb" ++
     [ EvStdout ("Port forwarding session started" +:+ LF);
       EvGoKeepAlive 3306 0;
       EvValidateInputAndStartSession
         ("aws-go-forward" ::
          agent_arguments (sample_json sample_session) "us-east-1" "default" "i-0bbb");
       EvStdout ("Session Manager Output: Cannot perform start session: EOF" +:+ LF);
       EvSignalNotify 1 [Interrupt; SIGTERM];
       EvRecv 1; EvClose 0; EvExit 0 ])
    (Exited 0).
Proof.
  refine (proj2 (agent_return_is_not_fatal sample_World_returning sample_builtin
                  EmptyString St0 sample_builtin sample_aws_Config "i-0bbb"
                  sample_session (sample_json sample_session)
                  "Cannot perform start session: EOF"
                  eq_refl eq_refl _ eq_refl eq_refl) eq_refl).
  sample_negotiation.
Defined.

(** ** Nil dereferences *)





(** ** The strategy of main.go *)

(** X17. main.go never starts a process and never kills one, and its
    process handle stays nil, in every run: whatever the settings say about
    the agent, it is run in-process. *)
Theorem main_go_spawns_nothing (w : World) (flags : Config) (configFile : string) :
  List.filter spawns_or_kills (events (go_run (MainGo.main w flags configFile))) = [] /\
  sessionManagerProcess (fst (go_run (MainGo.main w flags configFile))) = None.
Proof.
  split; paths; reflexivity.
Qed.

(** X18. For main.go the strategy setting is dead: a run in which the
    flags and every settings file set it to some value is, event for event
    and in its outcome, the run in which they leave it alone. *)
Theorem main_go_ignores_UseBuiltin (b : bool) (w : World) (flags : Config)
    (configFile : string) :
  events (go_run (MainGo.main (World_with_UseBuiltin b w) (set_UseBuiltin b flags)
                    configFile)) =
  events (go_run (MainGo.main w flags configFile)) /\
  outcome (go_run (MainGo.main (World_with_UseBuiltin b w) (set_UseBuiltin b flags)
                     configFile)) =
  outcome (go_run (MainGo.main w flags configFile)).
Proof.
  split; unfold_program; unfold World_with_UseBuiltin;
    repeat (cbn;
            first [ progress change (missing (set_UseBuiltin b ?c)) with (missing c)
                  | path_step ]);
    cbn; reflexivity.
Qed.

(** ** The three programs compared *)

(** X19. With the in-process strategy chosen, the program with both
    strategies is main.go but for the words it prints and logs: the two runs
    have the same outcome and, text aside, the same events in the same
    order. *)
Theorem builtin_strategy_is_main_go (w : World) (flags : Config) (configFile : string)
    (s : St) (cfg : Config) :
  resolve w flags configFile St0 = (s, Returned cfg) ->
  UseBuiltin cfg = true ->
  List.filter (fun e => negb (own_output e))
    (events (go_run (Part000.main w flags configFile))) =
  List.filter (fun e => negb (own_output e))
    (events (go_run (MainGo.main w flags configFile))) /\
  outcome (go_run (Part000.main w flags configFile)) =
  outcome (go_run (MainGo.main w flags configFile)).
Proof.
  intros Hres Hb.
  split; revert Hres Hb; paths; (intros [= <- <-] || intros [=]); intros Hb;
    congruence || reflexivity.
Qed.

Lemma builtin_strategy_is_main_go_witness :
  outcome (go_run (Part000.main sample_World sample_builtin EmptyString)) =
  outcome (go_run (MainGo.main sample_World sample_builtin EmptyString)).
Proof.
  exact (proj2 (builtin_strategy_is_main_go sample_World sample_builtin EmptyString
                  St0 sample_builtin eq_refl eq_refl)).
Defined.

Lemma getInstanceID_both (client : ec2_Client) (instanceName : string) (s : St) :
  exists o o',
    getInstanceID client instanceName s =
      (push (EvDescribeInstances (name_filter instanceName)) s, o) /\
    Part000Old.getInstanceID client instanceName s =
      (push (EvDescribeInstances (name_filter instanceName)) s, o') /\
    ((o = Panicked /\ o' = Panicked) \/
     (exists id, o = Returned (id, None) /\ o' = Returned (id, None)) \/
     (exists e e', o = Returned (EmptyString, Some e) /\
                   o' = Returned (EmptyString, Some e'))).
Proof.
  unfold getInstanceID, Part000Old.getInstanceID.
  fold (name_filter instanceName). rewrite !emit_bind.
  destruct (DescribeInstances client (name_filter instanceName)) as [e|output].
  - do 2 eexists. split; [reflexivity|]. split; [reflexivity|]. right; right; eauto.
  - unfold mbind, M_bind.
    match goal with |- context [getInstanceID_reservations ?rs ?s0] =>
      destruct (getInstanceID_reservations_run rs s0) as (o & -> & [->|[[id|] ->]])
    end; do 2 eexists; (split; [reflexivity|]); (split; [reflexivity|]); eauto 7.
Qed.

Ltac both_step :=
  match goal with
  | |- context [getInstanceID ?c ?n ?s] =>
      let H := fresh "H" in
      let H' := fresh "H" in
      destruct (getInstanceID_both c n s)
        as (? & ? & H & H' & [[-> ->]|[(? & -> & ->)|(? & ? & -> & ->)]]);
      rewrite H, H'; clear H H'
  end.

(** X20. With the external strategy chosen, the program with both
    strategies does to the world what the first program did: the two runs
    make the same calls outside the process with the same arguments, start
    the same command, kill the same process and end alike.  The keeper, the
    stop channel and the wording of two errors are all that was added. *)
Theorem external_strategy_is_first_program (w : World) (flags : Config)
    (configFile : string) (s : St) (cfg : Config) :
  resolve w flags configFile St0 = (s, Returned cfg) ->
  UseBuiltin cfg = false ->
  List.filter deed (events (go_run (Part000.main w flags configFile))) =
  List.filter deed (events (go_run (Part000Old.main w flags configFile))) /\
  outcome (go_run (Part000.main w flags configFile)) =
  outcome (go_run (Part000Old.main w flags configFile)).
Proof.
  intros Hres Hb.
  split; revert Hres Hb;
    unfold_mains; unfold resolve, loadConfigFromFile; unfold_core;
    repeat (cbn; first [both_step | path_step]); cbn;
    (intros [= <- <-] || intros [=]); intros Hb;
    congruence || reflexivity.
Qed.

Lemma external_strategy_is_first_program_witness :
  List.filter deed (events (go_run (Part000.main sample_World sample_Config EmptyString))) =
  List.filter deed (events (go_run (Part000Old.main sample_World sample_Config EmptyString))).
Proof.
  exact (proj1 (external_strategy_is_first_program sample_World sample_Config EmptyString
                  St0 sample_Config eq_refl eq_refl)).
Defined.





(** ** The keeper on any schedule *)

Lemma fired_shape (fired : list Select) :
  (stop_fires fired = true /\
   exists rest, fired = (repeat TickerC (ticks_before_stop fired) ++ StopChan :: rest)%list) \/
  (stop_fires fired = false /\ fired = repeat TickerC (ticks_before_stop fired)).
Proof.
  induction fired as [|[|] fired IH]; cbn.
  - right; auto.
  - destruct IH as [[-> [rest Hr]]|[-> Hr]].
    + left. split; [reflexivity|]. exists rest. now rewrite <- Hr.
    + right. split; [reflexivity|]. now rewrite <- Hr.
  - left. split; [reflexivity|]. now exists fired.
Qed.

Lemma KeepAlive_with_any (net : Net) (sent_text : string) (localPort : Z)
    (fired : list Select) :
  KeepAlive_with net (fmt_Print sent_text) localPort fired St0 =
  (extend (keeper_trace net sent_text localPort fired) St0,
   if stop_fires fired then Returned tt else Blocked).
Proof.
  unfold keeper_trace.
  destruct (fired_shape fired) as [[-> [rest Hr]]|[-> Hr]].
  - rewrite Hr at 1. apply KeepAlive_with_stopped.
  - rewrite Hr at 1. rewrite KeepAlive_with_waiting. now rewrite app_nil_r.
Qed.

(** X22. KeepAlive of the program with both strategies, on any sequence
    of fired cases and against any answers of the local port: it makes its
    ticker of 30 seconds, probes once for every tick that fires before the
    stop channel does (a dial, and after a success one newline written, a
    line printed and the connection closed; after a failure a line printed),
    and returns, its ticker stopped, if and only if the stop channel fires;
    till then it waits.  Every connection it opens it closes. *)
Theorem KeepAlive_on_any_schedule (net : Net) (localPort : Z) (fired : list Select) :
  let r := Part000.KeepAlive net localPort fired St0 in
  let succeeded :=
    length (List.filter (dial_ok net localPort) (seq 0 (ticks_before_stop fired))) in
  trace (fst r) =
    keeper_trace net ("Keep-alive packet sent successfully" +:+ LF) localPort fired /\
  snd r = (if stop_fires fired then Returned tt else Blocked) /\
  List.filter is_dial (trace (fst r)) =
    repeat (EvDial "tcp" ("127.0.0.1:" +:+ Sprintf_d localPort)) (ticks_before_stop fired) /\
  List.filter is_write (trace (fst r)) = repeat (EvConnWrite LF) succeeded /\
  List.filter is_close (trace (fst r)) = repeat EvConnClose succeeded.
Proof.
  intros r succeeded. subst r.
  unfold Part000.KeepAlive, fmt_Println.
  change (emit (EvStdout ?t)) with (fmt_Print t).
  rewrite KeepAlive_with_any. cbn [fst snd extend trace St0 app].
  split; [reflexivity|]. split; [reflexivity|].
  unfold keeper_trace.
  repeat split.
  - cbn [app List.filter is_dial]. rewrite List.filter_app, probes_dials, length_seq.
    destruct (stop_fires fired); cbn; now rewrite app_nil_r.
  - cbn [app List.filter is_write]. rewrite List.filter_app, probes_writes.
    destruct (stop_fires fired); cbn; now rewrite app_nil_r.
  - cbn [app List.filter is_close]. rewrite List.filter_app, probes_closes.
    destruct (stop_fires fired); cbn; now rewrite app_nil_r.
Qed.

Lemma probe_silent (net : Net) (t1 t2 : string) (localPort : Z) (l : list nat) :
  List.filter (fun e => negb (own_output e)) (flat_map (probe net t1 localPort) l) =
  List.filter (fun e => negb (own_output e)) (flat_map (probe net t2 localPort) l).
Proof.
  rewrite !filter_flat_map. apply flat_map_ext. intros k. unfold probe. cbn.
  now destruct (net_Dial net k "tcp" (probe_address localPort)).
Qed.

(** X23. The keepers of the two programs differ in the line they
    print after a successful write and in nothing else: on the same fired
    cases and the same answers of the local port they end alike, and, what is
    printed aside, do the same things in the same order. *)
Theorem KeepAlive_versions_agree (net : Net) (localPort : Z) (fired : list Select) :
  List.filter (fun e => negb (own_output e))
    (trace (fst (MainGo.KeepAlive net localPort fired St0))) =
  List.filter (fun e => negb (own_output e))
    (trace (fst (Part000.KeepAlive net localPort fired St0))) /\
  snd (MainGo.KeepAlive net localPort fired St0) =
  snd (Part000.KeepAlive net localPort fired St0).
Proof.
  unfold MainGo.KeepAlive, Part000.KeepAlive, fmt_Println.
  change (emit (EvStdout ?t)) with (fmt_Print t).
  rewrite !KeepAlive_with_any. cbn [fst snd extend trace St0 app].
  split; [|reflexivity].
  unfold keeper_trace. rewrite !List.filter_app.
  now rewrite (probe_silent net "." ("Keep-alive packet sent successfully" +:+ LF)).
Qed.

(** ** How runs end *)


